(** * NVDAAL driver: GSP bring-up engine, VA-space and GPFIFO channel

    A shallow embedding of the parts of [Sources/NVDAALGsp.cpp],
    [Sources/NVDAALVASpace.cpp] and [NVDAALChannel.cpp] that the bring-up
    properties talk about, followed by the properties themselves.

    Conventions.
    - C unsigned integers are [Z] with the wrap-around written out
      ([u32], [u64]); bit tests use [Z.land].
    - Byte buffers are [list Z] (one entry per byte, little-endian host).  A
      load outside a buffer is undefined behaviour in C; here it yields 0.  A
      store outside a buffer is dropped.
    - BAR0 and the kernel services the driver calls are an interface
      ([Host]); the driver state is a record ([Gsp]) threaded through a small
      state monad whose [None] means "does not return". *)

From Stdlib Require Import ZArith List Lia Bool.
From stdpp Require Import base option list gmap.

Local Open Scope Z_scope.

(** ** Machine integers *)

Definition u8 (x : Z) : Z := x mod 256.
Definition u16 (x : Z) : Z := x mod 65536.
Definition u32 (x : Z) : Z := x mod 4294967296.
Definition u64 (x : Z) : Z := x mod 18446744073709551616.

(** [v & mask] used as a C condition. *)
Definition testmask (v mask : Z) : bool := negb (Z.land v mask =? 0).

(** ** Byte buffers *)

Definition rd8 (buf : list Z) (off : Z) : Z :=
  default 0 (buf !! Z.to_nat off).

Definition rd16 (buf : list Z) (off : Z) : Z :=
  rd8 buf off + 256 * rd8 buf (off + 1).

Definition rd32 (buf : list Z) (off : Z) : Z :=
  rd8 buf off + 256 * rd8 buf (off + 1)
  + 65536 * rd8 buf (off + 2) + 16777216 * rd8 buf (off + 3).

Definition wr8 (buf : list Z) (off : Z) (v : Z) : list Z :=
  <[Z.to_nat off := u8 v]> buf.

Definition wr32 (buf : list Z) (off : Z) (v : Z) : list Z :=
  wr8 (wr8 (wr8 (wr8 buf off v)
                (off + 1) (v / 256))
           (off + 2) (v / 65536))
      (off + 3) (v / 16777216).

(** [memcpy(buf + off, src, length src)]. *)
Fixpoint wrbytes (buf : list Z) (off : Z) (src : list Z) : list Z :=
  match src with
  | [] => buf
  | b :: src' => wrbytes (wr8 buf off b) (off + 1) src'
  end.

(** The [n] bytes at [buf + off]. *)
Definition rdbytes (buf : list Z) (off : Z) (n : Z) : list Z :=
  map (fun i => rd8 buf (off + Z.of_nat i)) (seq 0 (Z.to_nat n)).

Definition le32 (v : Z) : list Z :=
  [u8 v; u8 (v / 256); u8 (v / 65536); u8 (v / 16777216)].

Definition le16 (v : Z) : list Z := [u8 v; u8 (v / 256)].

(** ** calcChecksum (NVDAALGsp.cpp:1713) *)

(** One turn of the inner loop:
    [crc = (crc >> 1) ^ (0xEDB88320 & -(crc & 1))] on a [uint32_t]. *)
Definition crc_shift (crc : Z) : Z :=
  Z.lxor (Z.shiftr crc 1) (Z.land 0xEDB88320 (u32 (- (Z.land crc 1)))).

(** [crc ^= bytes[i]] followed by the eight turns of the inner loop. *)
Definition crc_byte (crc b : Z) : Z :=
  Nat.iter 8 crc_shift (Z.lxor crc b).

Definition calcChecksum (bytes : list Z) : Z :=
  u32 (Z.lnot (fold_left crc_byte bytes 0xFFFFFFFF)).

(** The textbook bit-serial CRC-32 (reflected polynomial 0xEDB88320, initial
    value 0xFFFFFFFF, final complement), written the usual way with a
    conditional: the reference [calcChecksum] is compared with. *)
Definition crc32_ref_bit (crc : Z) : Z :=
  if Z.odd crc then Z.lxor (Z.shiftr crc 1) 0xEDB88320 else Z.shiftr crc 1.

Definition crc32_ref_byte (crc b : Z) : Z :=
  Nat.iter 8 crc32_ref_bit (Z.lxor crc b).

Definition crc32_ref (bytes : list Z) : Z :=
  Z.lxor (fold_left crc32_ref_byte bytes 0xFFFFFFFF) 0xFFFFFFFF.

Definition is_byte (b : Z) : Prop := 0 <= b < 256.

(** ASCII "123456789", the customary CRC check input. *)
Definition crc_check_input : list Z := [49; 50; 51; 52; 53; 54; 55; 56; 57].

(** ** The host: BAR0 and the kernel services the driver calls

    [bar0_load w a] is the value a 32-bit load at BAR0 + [a] returns in
    world [w]; loads are observations and leave the world as it is.  The
    device reacts to stores ([bar0_store]) and to the passing of time
    ([io_delay], the argument is in microseconds).  [dma_alloc] is
    [IOBufferMemoryDescriptor::inTaskWithPhysicalMask] followed by [prepare]
    and [getPhysicalSegment(0)]: the bus address of a fresh physically
    contiguous buffer, or nothing. *)
Class Host (W : Type) : Type := {
  bar0_load : W -> Z -> Z;
  bar0_store : W -> Z -> Z -> W;
  io_delay : W -> Z -> W;
  dma_alloc : W -> Z -> option Z * W
}.

(** What the driver does that can be seen from outside.  [IOLog] has no
    effect on the driver or the device; the lines a property refers to are
    recorded, the others are left out. *)
Inductive LogLine : Type :=
| LogBootError (retcode : Z) (iteration : Z)
    (* startRiscv: Boot error detected: BR_RETCODE=.. at iteration .. *)
| LogQueueFull
    (* enqueueCommand: Command queue full *)
| LogRmStatus (status : Z)
    (* rmAlloc, rmControl: the RM call failed with status .. *)
| LogNoPmuTable
    (* parseVbios: No PMU table found via BIT tokens *)
| LogPatternSearch.
    (* parseVbios: Token 0x50 offsets don't contain PMU table, will use
       pattern search *)

Inductive Event : Type :=
| EvRead (addr val : Z)
| EvWrite (addr val : Z)
| EvDelay (us : Z)
| EvLog (line : LogLine).

Definition is_read (e : Event) : bool :=
  match e with EvRead _ _ => true | _ => false end.

Definition is_write (e : Event) : bool :=
  match e with EvWrite _ _ => true | _ => false end.

(** ** Register catalog

    [NVDAALRegs.h] is not among the sources.  The functions below only need
    the names; the catalog is a parameter, and [adaRegs] further down gives
    the values the repository's own documents state. *)
Class Regs : Type := {
  NV_PFB_PRI_MMU_WPR2_ADDR_LO : Z;
  NV_PFB_PRI_MMU_WPR2_ADDR_HI : Z;
  NV_PFB_PRI_MMU_WPR2_ADDR_LO_VAL : Z;
  NV_PFB_WPR2_ENABLED : Z -> bool;
  NV_PRISCV_RISCV_CPUCTL : Z;
  NV_PRISCV_RISCV_BR_RETCODE : Z;
  NV_PRISCV_RISCV_BCR_CTRL : Z;
  NV_PRISCV_RISCV_BCR_DMEM_ADDR : Z;
  NV_PRISCV_RISCV_BCR_CTRL_VALID : Z;
  NV_PRISCV_CPUCTL_HALTED : Z;
  NV_PRISCV_CPUCTL_ACTIVE : Z;
  NV_PRISCV_CPUCTL_START : Z;
  NV_PGSP_BASE : Z;
  NV_PGSP_FALCON_CPUCTL : Z;
  NV_PGSP_FALCON_MAILBOX0 : Z;
  NV_PGSP_QUEUE_TAIL : Z -> Z;
  GSP_CMDQ_IDX : Z;
  NV_PBUS_SW_SCRATCH_0E : Z;
  NV_PGC6_BSI_SECURE_SCRATCH_14 : Z;
  FALCON_CPUCTL : Z;
  FALCON_CPUCTL_STARTCPU : Z;
  FALCON_CPUCTL_HALTED : Z;
  FALCON_BOOTVEC : Z;
  FALCON_HWCFG : Z;
  FALCON_ITFEN : Z;
  FALCON_ITFEN_DTFEN : Z;
  FALCON_FBIF_TRANSCFG : Z -> Z;
  FALCON_TRANSCFG_TARGET_NON_COHERENT : Z;
  FALCON_FBIF_CTL : Z;
  FALCON_FBIF_CTL_ALLOW_PHYS : Z;
  FALCON_FBIF_CTL_ALLOW_PHYS_NO_CTX : Z;
  FALCON_DMATRFBASE : Z;
  FALCON_DMATRFBASE1 : Z;
  FALCON_DMATRFMOFFS : Z;
  FALCON_DMATRFFBOFFS : Z;
  FALCON_DMATRFCMD : Z;
  FALCON_DMA_CMD_IMEM : Z;
  FALCON_DMA_CMD_IDLE : Z;
  FALCON_IMEMC : Z -> Z;
  FALCON_IMEMD : Z -> Z;
  FALCON_DMEMC : Z -> Z;
  FALCON_DMEMD : Z -> Z;
  NV_VGPU_MSG_FUNCTION_GSP_SET_SYSTEM_INFO : Z;
  NV_VGPU_MSG_FUNCTION_GSP_RM_ALLOC : Z;
  NV_VGPU_MSG_FUNCTION_GSP_RM_CONTROL : Z;
  NV_VGPU_MSG_SIGNATURE_VALID : Z;
  QUEUE_SIZE : Z
}.

(** ** Structure layouts

    [NVDAALGsp.h] is not among the sources either.  Where NVDAALGsp.cpp
    itself fixes a layout (a comment, or [readVbiosFromBar] reading the same
    field byte by byte) it is a definition below; the rest is a parameter. *)
Class Layout : Type := {
  sizeof_VbiosPcirHeader : Z;
  sizeof_PmuLookupTableHeader : Z;
  sizeof_BitFalconData : Z;
  sizeof_NvfwBinHdr : Z;
  NvfwBinHdr_headerOffset : Z;
  sizeof_FalconUcodeDescV3 : Z;
  ucode_imemOffset : Z;
  ucode_imemSize : Z;
  ucode_imemSecureSize : Z;
  ucode_dmemOffset : Z;
  ucode_dmemSize : Z;
  ucode_sigOffset : Z;
  ucode_sigSize : Z;
  ucode_bootVec : Z;
  ucode_dataSize : Z;
  sizeof_DmemMapperHeader : Z;
  DmemMapper_initCmd : Z
}.

(** [VbiosRomHeader::pciDataOffset]: [readVbiosFromBar] reads the same
    pointer at bytes 0x18 and 0x19 of the image. *)
Definition rom_pciDataOffset : Z := 0x18.
(** [VbiosPcirHeader]: [readVbiosFromBar] reads the image length at bytes 16
    and 17, the code type at 20 and the last-image indicator at 21. *)
Definition pcir_signature : Z := 0.
Definition pcir_imageLength : Z := 16.
Definition pcir_codeType : Z := 20.
Definition pcir_indicator : Z := 21.
(** [BitHeader] after the six pattern bytes and a 16-bit version, and the
    six-byte [BitToken], as in the repository's test_vbios_parse.c. *)
Definition bit_headerSize : Z := 8.
Definition bit_tokenSize : Z := 9.
Definition bit_tokenCount : Z := 10.
Definition sizeof_BitToken : Z := 6.
Definition token_id : Z := 0.
Definition token_dataSize : Z := 2.
Definition token_dataOffset : Z := 4.
(** [PmuLookupTableHeader] starts with the signature bytes "01 06 06 xx";
    the two entry formats are described where [parseVbios] reads them. *)
Definition pmu_version : Z := 0.
Definition pmu_headerSize : Z := 1.
Definition pmu_entrySize : Z := 2.
Definition pmu_entryCount : Z := 3.
Definition entry_dataOffset : Z := 2.
(** [NvfwBinHdr] starts with the vendor id and the version. *)
Definition binhdr_vendorId : Z := 0.
Definition binhdr_version : Z := 2.

Definition VBIOS_IMAGE_TYPE_FWSEC : Z := 0xE0.
Definition BIT_TOKEN_PMU_TABLE : Z := 0x50.
Definition BIT_TOKEN_FALCON_DATA : Z := 0x70.
Definition PMU_TABLE_SIGNATURE_V1 : Z := 1.
Definition PMU_TABLE_HEADER_SIZE_V1 : Z := 6.
Definition PMU_TABLE_ENTRY_SIZE_V1 : Z := 6.
Definition FWSEC_APP_ID_FWSEC : Z := 0x85.
Definition DMEMMAPPER_SIGNATURE : Z := 0x50414D44.
Definition DMEMMAPPER_CMD_FRTS : Z := 0x15.
Definition GSP_PAGE_SIZE : Z := 0x1000.

(** Modelled from the spec: the queue element and RPC structures of
    NVDAALGsp.h, which is missing.  The frame header is 16 bytes
    [{seqNum, elemCount, checkSum, reserved}] followed by the payload; the
    message header is 24 bytes
    [{signature, headerVersion, rpcResult, rpcResultPriv, function, length}];
    the RM headers are [{hClient, hParent, hObject, hClass, status}] and
    [{hClient, hObject, cmd, flags, status, paramsSize}], all 32-bit. *)
Definition sizeof_GspQueueElement : Z := 16.
Definition elem_seqNum : Z := 0.
Definition elem_elemCount : Z := 4.
Definition elem_checkSum : Z := 8.
Definition elem_reserved : Z := 12.
Definition elem_data : Z := 16.
Definition sizeof_NvRpcMessageHeader : Z := 24.
Definition sizeof_NvGspAllocParams : Z := 20.
Definition alloc_status : Z := 16.
Definition sizeof_NvGspControlParams : Z := 24.
Definition control_status : Z := 16.

(** ** Kernel memory the driver passes around by address

    [IOMalloc] blocks and on-stack arrays live in a store of blocks; a
    pointer is a block and a byte offset.  Fresh memory is not initialised:
    its bytes are whatever [junk] says.  [IOMalloc] fails when the request
    exceeds [heap_left]. *)
Record Ptr : Type := { p_blk : nat; p_off : Z }.

Record Mem : Type := {
  blocks : gmap nat (list Z);
  next_blk : nat;
  heap_left : Z;
  junk : nat -> Z
}.

Definition fresh_bytes (m : Mem) (n : Z) : list Z :=
  map (junk m) (seq 0 (Z.to_nat n)).

Definition mem_new (m : Mem) (n : Z) (left : Z) : Ptr * Mem :=
  ({| p_blk := next_blk m; p_off := 0 |},
   {| blocks := <[next_blk m := fresh_bytes m n]> (blocks m);
      next_blk := S (next_blk m);
      heap_left := left;
      junk := junk m |}).

Definition mem_malloc (m : Mem) (n : Z) : option Ptr * Mem :=
  if heap_left m <? n then (None, m)
  else let '(p, m') := mem_new m n (heap_left m - n) in (Some p, m').

Definition mem_alloca (m : Mem) (n : Z) : Ptr * Mem :=
  mem_new m n (heap_left m).

Definition mem_free (m : Mem) (p : Ptr) (n : Z) : Mem :=
  {| blocks := delete (p_blk p) (blocks m);
     next_blk := next_blk m;
     heap_left := heap_left m + n;
     junk := junk m |}.

Definition mem_release (m : Mem) (p : Ptr) : Mem :=
  {| blocks := delete (p_blk p) (blocks m);
     next_blk := next_blk m;
     heap_left := heap_left m;
     junk := junk m |}.

Definition block_of (m : Mem) (p : Ptr) : list Z :=
  default [] (blocks m !! p_blk p).

Definition mem_load (m : Mem) (p : Ptr) (n : Z) : list Z :=
  rdbytes (block_of m p) (p_off p) n.

Definition mem_load32 (m : Mem) (p : Ptr) (off : Z) : Z :=
  rd32 (block_of m p) (p_off p + off).

Definition mem_update (m : Mem) (p : Ptr) (f : list Z -> list Z) : Mem :=
  {| blocks := alter f (p_blk p) (blocks m);
     next_blk := next_blk m;
     heap_left := heap_left m;
     junk := junk m |}.

Definition mem_store32 (m : Mem) (p : Ptr) (off v : Z) : Mem :=
  mem_update m p (fun b => wr32 b (p_off p + off) v).

Definition mem_store (m : Mem) (p : Ptr) (off : Z) (src : list Z) : Mem :=
  mem_update m p (fun b => wrbytes b (p_off p + off) src).

Definition ptr_add (p : Ptr) (d : Z) : Ptr :=
  {| p_blk := p_blk p; p_off := p_off p + d |}.

(** An [IOMemoryDescriptor] as far as the driver uses it: its length and
    [getPhysicalSegment(offset)]. *)
Record MemDesc : Type := {
  getLength : Z;
  getPhysicalSegment : Z -> Z
}.

(** ** FalconUcodeInfo and the driver object *)

Record FalconUcodeInfo : Type := {
  fwOffset : Z;
  storedSize : Z;
  imemOffset : Z;
  imemSize : Z;
  imemSecSize : Z;
  dmemOffset : Z;
  dmemSize : Z;
  sigOffset : Z;
  sigSize : Z;
  bootVec : Z;
  dmemMapperOffset : Z;
  valid : bool
}.

Definition fwsecInfo_zero : FalconUcodeInfo :=
  {| fwOffset := 0; storedSize := 0; imemOffset := 0; imemSize := 0;
     imemSecSize := 0; dmemOffset := 0; dmemSize := 0; sigOffset := 0;
     sigSize := 0; bootVec := 0; dmemMapperOffset := 0; valid := false |}.

Definition set_valid (b : bool) (i : FalconUcodeInfo) : FalconUcodeInfo :=
  {| fwOffset := fwOffset i; storedSize := storedSize i;
     imemOffset := imemOffset i; imemSize := imemSize i;
     imemSecSize := imemSecSize i; dmemOffset := dmemOffset i;
     dmemSize := dmemSize i; sigOffset := sigOffset i; sigSize := sigSize i;
     bootVec := bootVec i; dmemMapperOffset := dmemMapperOffset i;
     valid := b |}.

Definition set_dmemMapperOffset (j : Z) (i : FalconUcodeInfo)
  : FalconUcodeInfo :=
  {| fwOffset := fwOffset i; storedSize := storedSize i;
     imemOffset := imemOffset i; imemSize := imemSize i;
     imemSecSize := imemSecSize i; dmemOffset := dmemOffset i;
     dmemSize := dmemSize i; sigOffset := sigOffset i; sigSize := sigSize i;
     bootVec := bootVec i; dmemMapperOffset := j; valid := valid i |}.

(** The members of [NVDAALGsp] the modelled functions read or write, the
    world the driver runs in, and what it has done so far.  A DMA buffer
    ([IOBufferMemoryDescriptor *]) is [None] when the pointer is null. *)
Record Gsp (W : Type) : Type := mkGsp {
  world : W;
  trace : list Event;
  mem : Mem;
  gspReady : bool;
  rpcSeqNum : Z;
  cmdQueue : option (list Z);
  cmdQueueHead : Z;
  cmdQueueTail : Z;
  fwsecMem : option (list Z);
  fwsecPhys : Z;
  firmwareMem : option MemDesc;
  radix3Mem : option (list Z);
  radix3Phys : Z;
  wprMetaPhys : Z;
  wpr2Lo : Z;
  wpr2Hi : Z;
  fwsecInfo : FalconUcodeInfo;
  fwsecImageOffset : Z;
  fwsecImageSize : Z
}.

Arguments mkGsp {W}.
Arguments world {W}.
Arguments trace {W}.
Arguments mem {W}.
Arguments gspReady {W}.
Arguments rpcSeqNum {W}.
Arguments cmdQueue {W}.
Arguments cmdQueueHead {W}.
Arguments cmdQueueTail {W}.
Arguments fwsecMem {W}.
Arguments fwsecPhys {W}.
Arguments firmwareMem {W}.
Arguments radix3Mem {W}.
Arguments radix3Phys {W}.
Arguments wprMetaPhys {W}.
Arguments wpr2Lo {W}.
Arguments wpr2Hi {W}.
Arguments fwsecInfo {W}.
Arguments fwsecImageOffset {W}.
Arguments fwsecImageSize {W}.

Section Setters.
Context {W : Type}.
Implicit Type g : Gsp W.

Definition set_world (w : W) g : Gsp W :=
  mkGsp w (trace g) (mem g) (gspReady g) (rpcSeqNum g) (cmdQueue g)
    (cmdQueueHead g) (cmdQueueTail g) (fwsecMem g) (fwsecPhys g)
    (firmwareMem g) (radix3Mem g) (radix3Phys g) (wprMetaPhys g) (wpr2Lo g)
    (wpr2Hi g) (fwsecInfo g) (fwsecImageOffset g) (fwsecImageSize g).

Definition set_trace (t : list Event) g : Gsp W :=
  mkGsp (world g) t (mem g) (gspReady g) (rpcSeqNum g) (cmdQueue g)
    (cmdQueueHead g) (cmdQueueTail g) (fwsecMem g) (fwsecPhys g)
    (firmwareMem g) (radix3Mem g) (radix3Phys g) (wprMetaPhys g) (wpr2Lo g)
    (wpr2Hi g) (fwsecInfo g) (fwsecImageOffset g) (fwsecImageSize g).

Definition set_mem (m : Mem) g : Gsp W :=
  mkGsp (world g) (trace g) m (gspReady g) (rpcSeqNum g) (cmdQueue g)
    (cmdQueueHead g) (cmdQueueTail g) (fwsecMem g) (fwsecPhys g)
    (firmwareMem g) (radix3Mem g) (radix3Phys g) (wprMetaPhys g) (wpr2Lo g)
    (wpr2Hi g) (fwsecInfo g) (fwsecImageOffset g) (fwsecImageSize g).

Definition set_rpcSeqNum (n : Z) g : Gsp W :=
  mkGsp (world g) (trace g) (mem g) (gspReady g) n (cmdQueue g)
    (cmdQueueHead g) (cmdQueueTail g) (fwsecMem g) (fwsecPhys g)
    (firmwareMem g) (radix3Mem g) (radix3Phys g) (wprMetaPhys g) (wpr2Lo g)
    (wpr2Hi g) (fwsecInfo g) (fwsecImageOffset g) (fwsecImageSize g).

Definition set_cmdQueue (q : option (list Z)) g : Gsp W :=
  mkGsp (world g) (trace g) (mem g) (gspReady g) (rpcSeqNum g) q
    (cmdQueueHead g) (cmdQueueTail g) (fwsecMem g) (fwsecPhys g)
    (firmwareMem g) (radix3Mem g) (radix3Phys g) (wprMetaPhys g) (wpr2Lo g)
    (wpr2Hi g) (fwsecInfo g) (fwsecImageOffset g) (fwsecImageSize g).

Definition set_cmdQueueTail (t : Z) g : Gsp W :=
  mkGsp (world g) (trace g) (mem g) (gspReady g) (rpcSeqNum g) (cmdQueue g)
    (cmdQueueHead g) t (fwsecMem g) (fwsecPhys g)
    (firmwareMem g) (radix3Mem g) (radix3Phys g) (wprMetaPhys g) (wpr2Lo g)
    (wpr2Hi g) (fwsecInfo g) (fwsecImageOffset g) (fwsecImageSize g).

Definition set_radix3 (t : option (list Z)) (phys : Z) g : Gsp W :=
  mkGsp (world g) (trace g) (mem g) (gspReady g) (rpcSeqNum g) (cmdQueue g)
    (cmdQueueHead g) (cmdQueueTail g) (fwsecMem g) (fwsecPhys g)
    (firmwareMem g) t phys (wprMetaPhys g) (wpr2Lo g)
    (wpr2Hi g) (fwsecInfo g) (fwsecImageOffset g) (fwsecImageSize g).

Definition set_wpr2 (lo hi : Z) g : Gsp W :=
  mkGsp (world g) (trace g) (mem g) (gspReady g) (rpcSeqNum g) (cmdQueue g)
    (cmdQueueHead g) (cmdQueueTail g) (fwsecMem g) (fwsecPhys g)
    (firmwareMem g) (radix3Mem g) (radix3Phys g) (wprMetaPhys g) lo
    hi (fwsecInfo g) (fwsecImageOffset g) (fwsecImageSize g).

Definition set_fwsecInfo (i : FalconUcodeInfo) g : Gsp W :=
  mkGsp (world g) (trace g) (mem g) (gspReady g) (rpcSeqNum g) (cmdQueue g)
    (cmdQueueHead g) (cmdQueueTail g) (fwsecMem g) (fwsecPhys g)
    (firmwareMem g) (radix3Mem g) (radix3Phys g) (wprMetaPhys g) (wpr2Lo g)
    (wpr2Hi g) i (fwsecImageOffset g) (fwsecImageSize g).

Definition set_fwsecImage (off len : Z) g : Gsp W :=
  mkGsp (world g) (trace g) (mem g) (gspReady g) (rpcSeqNum g) (cmdQueue g)
    (cmdQueueHead g) (cmdQueueTail g) (fwsecMem g) (fwsecPhys g)
    (firmwareMem g) (radix3Mem g) (radix3Phys g) (wprMetaPhys g) (wpr2Lo g)
    (wpr2Hi g) (fwsecInfo g) off len.

End Setters.

(** ** The driver monad *)

Definition Drv (W A : Type) : Type := Gsp W -> option (A * Gsp W).

Definition ret {W A} (a : A) : Drv W A := fun g => Some (a, g).

Definition bind {W A B} (c : Drv W A) (k : A -> Drv W B) : Drv W B :=
  fun g => match c g with
           | Some (a, g') => k a g'
           | None => None
           end.

(** A computation that never returns (a loop that does not end). *)
Definition hang {W A} : Drv W A := fun _ => None.

Definition gets {W A} (f : Gsp W -> A) : Drv W A := fun g => Some (f g, g).

Definition modify {W} (f : Gsp W -> Gsp W) : Drv W unit :=
  fun g => Some (tt, f g).

Declare Scope gsp_scope.
Delimit Scope gsp_scope with gsp.
Notation "'let*' x := c 'in' k" := (bind c (fun x => k))
  (at level 10, x name, c at level 100, k at level 200) : gsp_scope.
Notation "c ;;; k" := (bind c (fun _ => k))
  (at level 100, k at level 200, right associativity) : gsp_scope.

Section Driver.
Context {W : Type} `{!Host W} `{!Regs} `{!Layout}.
Local Open Scope gsp_scope.

Local Abbreviation M := (Drv W).

(** ** MMIO and kernel services *)

Definition emit (e : Event) : M unit :=
  modify (fun g => set_trace (trace g ++ [e]) g).

Definition IOLog (line : LogLine) : M unit := emit (EvLog line).

Definition readReg (addr : Z) : M Z :=
  fun g =>
    let v := u32 (bar0_load (world g) addr) in
    Some (v, set_trace (trace g ++ [EvRead addr v]) g).

Definition writeReg (addr val : Z) : M unit :=
  modify (fun g =>
    set_trace (trace g ++ [EvWrite addr (u32 val)])
      (set_world (bar0_store (world g) addr (u32 val)) g)).

Definition IODelay (us : Z) : M unit :=
  modify (fun g =>
    set_trace (trace g ++ [EvDelay us])
      (set_world (io_delay (world g) us) g)).

Definition IOMalloc (n : Z) : M (option Ptr) :=
  fun g => let '(r, m) := mem_malloc (mem g) n in Some (r, set_mem m g).

Definition IOFree (p : Ptr) (n : Z) : M unit :=
  modify (fun g => set_mem (mem_free (mem g) p n) g).

(** An array declared on the stack, and its end of life. *)
Definition alloca (n : Z) : M Ptr :=
  fun g => let '(p, m) := mem_alloca (mem g) n in Some (p, set_mem m g).

Definition leave (p : Ptr) : M unit :=
  modify (fun g => set_mem (mem_release (mem g) p) g).

Definition store32 (p : Ptr) (off v : Z) : M unit :=
  modify (fun g => set_mem (mem_store32 (mem g) p off v) g).

Definition load32 (p : Ptr) (off : Z) : M Z :=
  gets (fun g => mem_load32 (mem g) p off).

(** [memcpy(dst + off, src, n)] between two blocks of kernel memory. *)
Definition memcpy (dst : Ptr) (off : Z) (src : Ptr) (n : Z) : M unit :=
  modify (fun g =>
    set_mem (mem_store (mem g) dst off (mem_load (mem g) src n)) g).

(** Stores into the command ring ([cmdQueue + off]). *)
Definition ring_update (f : list Z -> list Z) : M unit :=
  modify (fun g => set_cmdQueue (option_map f (cmdQueue g)) g).

Definition ring_bytes (g : Gsp W) : list Z := default [] (cmdQueue g).

(** ** RPC transport (NVDAALGsp.cpp:1728-1799) *)

(** [(elemSize + 0xFFULL) & ~0xFFULL] *)
Definition align256 (elemSize : Z) : Z :=
  Z.land (u64 (elemSize + 0xFF)) (u64 (Z.lnot 0xFF)).

(** [(tail >= head) ? (QUEUE_SIZE - tail + head) : (head - tail)], on
    [uint32_t] operands. *)
Definition freeSpace (head tail : Z) : Z :=
  if head <=? tail then u32 (QUEUE_SIZE - tail + head) else u32 (head - tail).

Definition enqueueCommand (msg : Ptr) (size : Z) : M bool :=
  let* q := gets cmdQueue in
  match q with
  | None => ret false
  | Some _ =>
    let elemSize := u64 (sizeof_GspQueueElement + size) in
    let alignedSize := align256 elemSize in
    let* head := gets cmdQueueHead in
    let* tail := gets cmdQueueTail in
    if freeSpace head tail <? alignedSize then
      IOLog LogQueueFull ;;; ret false
    else
      let* seqNum := gets rpcSeqNum in
      modify (set_rpcSeqNum (u32 (seqNum + 1))) ;;;
      ring_update (fun r => wr32 r (tail + elem_seqNum) seqNum) ;;;
      ring_update (fun r => wr32 r (tail + elem_elemCount)
                              (u32 ((alignedSize + 0xFFF) / 0x1000))) ;;;
      ring_update (fun r => wr32 r (tail + elem_reserved) 0) ;;;
      let* payload := gets (fun g => mem_load (mem g) msg size) in
      ring_update (fun r => wrbytes r (tail + elem_data) payload) ;;;
      let* data := gets (fun g => rdbytes (ring_bytes g) (tail + elem_data) size) in
      ring_update (fun r => wr32 r (tail + elem_checkSum) (calcChecksum data)) ;;;
      let newTail := u32 ((tail + alignedSize) mod QUEUE_SIZE) in
      modify (set_cmdQueueTail newTail) ;;;
      writeReg (NV_PGSP_QUEUE_TAIL GSP_CMDQ_IDX) newTail ;;;
      ret true
  end.

Definition sendRpc (function : Z) (params : option Ptr) (paramsSize : Z)
  : M bool :=
  let* ready := gets gspReady in
  if negb ready && negb (function =? NV_VGPU_MSG_FUNCTION_GSP_SET_SYSTEM_INFO)
  then ret false
  else
    let msgSize := u64 (sizeof_NvRpcMessageHeader + paramsSize) in
    let* r := IOMalloc msgSize in
    match r with
    | None => ret false
    | Some msgBuf =>
      store32 msgBuf 0 NV_VGPU_MSG_SIGNATURE_VALID ;;;
      store32 msgBuf 4 (Z.shiftl 3 24) ;;;
      store32 msgBuf 8 0 ;;;
      store32 msgBuf 12 0 ;;;
      store32 msgBuf 16 function ;;;
      store32 msgBuf 20 (u32 msgSize) ;;;
      match params with
      | Some src =>
          if 0 <? paramsSize
          then memcpy msgBuf sizeof_NvRpcMessageHeader src paramsSize
          else ret tt
      | None => ret tt
      end ;;;
      let* ok := enqueueCommand msgBuf msgSize in
      IOFree msgBuf msgSize ;;;
      ret ok
    end.

(** ** Resource-Manager client (NVDAALGsp.cpp:1875-1948) *)

Definition rmAlloc (hClient hParent hObject hClass : Z)
    (params : option Ptr) (paramsSize : Z) : M bool :=
  let allocSize := u64 (sizeof_NvGspAllocParams + paramsSize) in
  let* stackBuf := alloca 256 in
  let* heapBuf :=
    if 256 <? allocSize then IOMalloc allocSize else ret (Some stackBuf) in
  match heapBuf with
  | None => leave stackBuf ;;; ret false
  | Some buffer =>
    let allocated := 256 <? allocSize in
    store32 buffer 0 hClient ;;;
    store32 buffer 4 hParent ;;;
    store32 buffer 8 hObject ;;;
    store32 buffer 12 hClass ;;;
    store32 buffer alloc_status 0 ;;;
    match params with
    | Some src =>
        if 0 <? paramsSize
        then memcpy buffer sizeof_NvGspAllocParams src paramsSize
        else ret tt
    | None => ret tt
    end ;;;
    let* result := sendRpc NV_VGPU_MSG_FUNCTION_GSP_RM_ALLOC (Some buffer) allocSize in
    let* status := load32 buffer alloc_status in
    let* result :=
      if result && negb (status =? 0)
      then IOLog (LogRmStatus status) ;;; ret false
      else ret result in
    (if allocated then IOFree buffer allocSize else ret tt) ;;;
    leave stackBuf ;;;
    ret result
  end.

Definition rmControl (hClient hObject cmd : Z)
    (params : option Ptr) (paramsSize : Z) : M bool :=
  let ctrlSize := u64 (sizeof_NvGspControlParams + paramsSize) in
  let* stackBuf := alloca 256 in
  let* heapBuf :=
    if 256 <? ctrlSize then IOMalloc ctrlSize else ret (Some stackBuf) in
  match heapBuf with
  | None => leave stackBuf ;;; ret false
  | Some buffer =>
    let allocated := 256 <? ctrlSize in
    store32 buffer 0 hClient ;;;
    store32 buffer 4 hObject ;;;
    store32 buffer 8 cmd ;;;
    store32 buffer 12 0 ;;;
    store32 buffer control_status 0 ;;;
    store32 buffer 20 (u32 paramsSize) ;;;
    match params with
    | Some src =>
        if 0 <? paramsSize
        then memcpy buffer sizeof_NvGspControlParams src paramsSize
        else ret tt
    | None => ret tt
    end ;;;
    let* result := sendRpc NV_VGPU_MSG_FUNCTION_GSP_RM_CONTROL (Some buffer) ctrlSize in
    let* status := load32 buffer control_status in
    let* result :=
      if result && negb (status =? 0)
      then IOLog (LogRmStatus status) ;;; ret false
      else ret result in
    (if allocated then IOFree buffer ctrlSize else ret tt) ;;;
    leave stackBuf ;;;
    ret result
  end.

(** ** VBIOS parser (NVDAALGsp.cpp:377-731)

    The loops of [parseVbios] are recursive functions on a bound [n] on the
    number of turns; where the C loop can go on for ever the function
    answers [None] when the bound is used up, and [parseVbios] passes more
    turns than a loop that ends can take. *)

Definition romSignatureAt (data : list Z) (off : Z) : bool :=
  (rd8 data off =? 0x55) && (rd8 data (off + 1) =? 0xAA).

(** Step 1, [while (offset < size - 2)]: the result is
    [(fwsecStart, fwsecLen)]. *)
Fixpoint scanImages (n : nat) (data : list Z) (size : Z)
    (offset fwsecStart fwsecLen : Z) : option (Z * Z) :=
  if negb (offset <? u64 (size - 2)) then Some (fwsecStart, fwsecLen)
  else
    match n with
    | O => None
    | S n' =>
      if (Z.land offset 0x1FF =? 0) && romSignatureAt data offset then
        let pciDataOffset := rd16 data (offset + rom_pciDataOffset) in
        if (pciDataOffset =? 0)
           || (size <? u32 (offset + pciDataOffset) + sizeof_VbiosPcirHeader)
        then scanImages n' data size (u32 (offset + 512)) fwsecStart fwsecLen
        else
          let pcir := offset + pciDataOffset in
          if negb (rd32 data (pcir + pcir_signature) =? 0x52494350)
          then scanImages n' data size (u32 (offset + 512)) fwsecStart fwsecLen
          else
            let imageLen := u32 (rd16 data (pcir + pcir_imageLength) * 512) in
            let isFirstFwsec :=
              (rd8 data (pcir + pcir_codeType) =? VBIOS_IMAGE_TYPE_FWSEC)
              && (fwsecStart =? 0) in
            let fwsecStart' := if isFirstFwsec then offset else fwsecStart in
            let fwsecLen' := if isFirstFwsec then imageLen else fwsecLen in
            if testmask (rd8 data (pcir + pcir_indicator)) 0x80
            then Some (fwsecStart', fwsecLen')
            else scanImages n' data size (u32 (offset + imageLen))
                   fwsecStart' fwsecLen'
      else scanImages n' data size (u32 (offset + 512)) fwsecStart fwsecLen
    end.

Definition bitPattern : list Z := [0xFF; 0xB8; 66; 73; 84; 0].

Definition bitPatternAt (data : list Z) (i : Z) : bool :=
  bool_decide (rdbytes data i 6 = bitPattern).

(** [for (i = 0; i < size - 6; i++)] with its [break]: the offset of the
    first match, if any. *)
Fixpoint findBit (n : nat) (data : list Z) (size : Z) (i : Z)
  : option (option Z) :=
  if negb (i <? u64 (size - 6)) then Some None
  else
    match n with
    | O => None
    | S n' =>
      if bitPatternAt data i then Some (Some i)
      else findBit n' data size (u32 (i + 1))
    end.

(** [for (j = 0; j < size - 2; j += 512)] inside the BIT search: the last
    image start not after the BIT header. *)
Fixpoint findImageBase (n : nat) (data : list Z) (size : Z)
    (j bitOffset imageBase : Z) : Z :=
  match n with
  | O => imageBase
  | S n' =>
    if j <? u64 (size - 2) then
      findImageBase n' data size (u32 (j + 512)) bitOffset
        (if romSignatureAt data j && (j <=? bitOffset) then j else imageBase)
    else imageBase
  end.

(** Step 3, the token loop: the result is
    [(pmuTokenOffset, pmuTokenDataSize, falconDataOffset)]. *)
Fixpoint scanTokens (n : nat) (data : list Z) (size imageBase tokenSize : Z)
    (tokenOffset pmuTokenOffset pmuTokenDataSize falconDataOffset : Z)
  : Z * Z * Z :=
  match n with
  | O => (pmuTokenOffset, pmuTokenDataSize, falconDataOffset)
  | S n' =>
    if tokenOffset <? u64 (size - sizeof_BitToken) then
      let id := rd8 data (tokenOffset + token_id) in
      let dataOffset := rd16 data (tokenOffset + token_dataOffset) in
      let dataSize := rd16 data (tokenOffset + token_dataSize) in
      if id =? BIT_TOKEN_PMU_TABLE then
        scanTokens n' data size imageBase tokenSize
          (u32 (tokenOffset + tokenSize))
          (u32 (imageBase + dataOffset)) dataSize falconDataOffset
      else if id =? BIT_TOKEN_FALCON_DATA then
        scanTokens n' data size imageBase tokenSize
          (u32 (tokenOffset + tokenSize))
          pmuTokenOffset pmuTokenDataSize (u32 (imageBase + dataOffset))
      else
        scanTokens n' data size imageBase tokenSize
          (u32 (tokenOffset + tokenSize))
          pmuTokenOffset pmuTokenDataSize falconDataOffset
    else (pmuTokenOffset, pmuTokenDataSize, falconDataOffset)
  end.

(** The PMU lookup table signature: version 1, header size 6, entry size 6
    and between 1 and 32 entries. *)
Definition pmuSignatureAt (data : list Z) (off : Z) : bool :=
  (rd8 data (off + pmu_version) =? PMU_TABLE_SIGNATURE_V1)
  && (rd8 data (off + pmu_headerSize) =? PMU_TABLE_HEADER_SIZE_V1)
  && (rd8 data (off + pmu_entrySize) =? PMU_TABLE_ENTRY_SIZE_V1)
  && (1 <=? rd8 data (off + pmu_entryCount))
  && (rd8 data (off + pmu_entryCount) <=? 32).

(** Step 4, the candidate offsets of token 0x50: the first candidate that
    carries the signature, or 0. *)
Fixpoint scanCandidates (n : nat) (data : list Z) (size pmuTokenOffset : Z)
    (i : Z) : Z :=
  match n with
  | O => 0
  | S n' =>
    let candidateOffset := rd32 data (pmuTokenOffset + 4 * i) in
    if (candidateOffset =? 0)
       || (size <? candidateOffset + sizeof_PmuLookupTableHeader)
    then scanCandidates n' data size pmuTokenOffset (i + 1)
    else if pmuSignatureAt data candidateOffset then candidateOffset
    else scanCandidates n' data size pmuTokenOffset (i + 1)
  end.

(** Step 5, inner loop: does one of the first [n] entries have the one-byte
    application id 0x85? *)
Fixpoint hasFwsecEntry (n : nat) (data : list Z) (size entrySize : Z)
    (testEntryOffset : Z) : bool :=
  match n with
  | O => false
  | S n' =>
    if u32 (testEntryOffset + entrySize) <=? size then
      if rd8 data testEntryOffset =? 0x85 then true
      else hasFwsecEntry n' data size entrySize
             (u32 (testEntryOffset + entrySize))
    else false
  end.

Definition pmuPatternAt (data : list Z) (size searchOffset : Z) : bool :=
  pmuSignatureAt data searchOffset
  && hasFwsecEntry (Z.to_nat (rd8 data (searchOffset + pmu_entryCount)))
       data size (rd8 data (searchOffset + pmu_entrySize))
       (u32 (searchOffset + rd8 data (searchOffset + pmu_headerSize))).

(** Step 5, [for (searchOffset = 0x9000; searchOffset < size - 0x100 &&
    !found; searchOffset += 4)]. *)
Fixpoint patternSearch (n : nat) (data : list Z) (size searchOffset : Z)
  : option (option Z) :=
  if negb (searchOffset <? u64 (size - 0x100)) then Some None
  else
    match n with
    | O => None
    | S n' =>
      if pmuPatternAt data size searchOffset then Some (Some searchOffset)
      else patternSearch n' data size (u32 (searchOffset + 4))
    end.

(** The scan of DMEM for the "DMAP" magic, four bytes at a time:
    [for (j = 0; j < dmemSize - 4; j += 4)] on [uint32_t]. *)
Fixpoint findDmemMapper (n : nat) (data : list Z) (dmemOff dmemSz : Z)
    (j : Z) : option (option Z) :=
  if negb (j <? u32 (dmemSz - 4)) then Some None
  else
    match n with
    | O => None
    | S n' =>
      if rd32 data (dmemOff + j) =? DMEMMAPPER_SIGNATURE then Some (Some j)
      else findDmemMapper n' data dmemOff dmemSz (u32 (j + 4))
    end.

(** What the entry loop stores once it has accepted a descriptor. *)
Definition extractUcode (data : list Z) (size : Z)
    (ucodeOffset ucodeDescOffset storedSz : Z) (old : FalconUcodeInfo)
  : option FalconUcodeInfo :=
  let field off := rd32 data (ucodeDescOffset + off) in
  let dmemOff := u32 (ucodeDescOffset + field ucode_dmemOffset) in
  let dmemSz := field ucode_dmemSize in
  let info :=
    {| fwOffset := ucodeOffset;
       storedSize := if 0 <? storedSz then storedSz else field ucode_dataSize;
       imemOffset := u32 (ucodeDescOffset + field ucode_imemOffset);
       imemSize := field ucode_imemSize;
       imemSecSize := field ucode_imemSecureSize;
       dmemOffset := dmemOff;
       dmemSize := dmemSz;
       sigOffset := u32 (ucodeDescOffset + field ucode_sigOffset);
       sigSize := field ucode_sigSize;
       bootVec := field ucode_bootVec;
       dmemMapperOffset := dmemMapperOffset old;
       valid := true |} in
  if u32 (dmemOff + dmemSz) <=? size then
    match findDmemMapper (Z.to_nat (u32 (dmemSz - 4) / 4 + 1))
            data dmemOff dmemSz 0 with
    | None => None
    | Some (Some j) => Some (set_dmemMapperOffset j info)
    | Some None => Some info
    end
  else Some info.

(** The entry loop.  [continue] leaves [entryOffset] where it is: the
    advance is the last statement of the body, not part of the [for]. *)
Fixpoint scanEntries (n : nat) (data : list Z) (size fwsecStart : Z)
    (isAdaFormat : bool) (entrySize entryOffset : Z) (info : FalconUcodeInfo)
  : option FalconUcodeInfo :=
  match n with
  | O => Some info
  | S n' =>
    if entryOffset <? u64 (size - entrySize) then
      let appId :=
        if isAdaFormat then rd16 data entryOffset else rd8 data entryOffset in
      let dataOffset := rd32 data (entryOffset + entry_dataOffset) in
      if (appId =? FWSEC_APP_ID_FWSEC) || (appId =? 0x01) then
        let ucodeOffset :=
          if dataOffset <? fwsecStart then u32 (dataOffset + fwsecStart)
          else dataOffset in
        if size <? ucodeOffset + sizeof_FalconUcodeDescV3 then
          scanEntries n' data size fwsecStart isAdaFormat entrySize
            entryOffset info
        else
          let hasBinHdr :=
            (rd16 data (ucodeOffset + binhdr_vendorId) =? 0x10DE)
            && (1 <=? rd16 data (ucodeOffset + binhdr_version))
            && (rd16 data (ucodeOffset + binhdr_version) <=? 0x10) in
          let storedSz :=
            if hasBinHdr then rd32 data (ucodeOffset + sizeof_NvfwBinHdr)
            else 0 in
          let ucodeDescOffset :=
            if hasBinHdr
            then u32 (ucodeOffset
                      + rd32 data (ucodeOffset + NvfwBinHdr_headerOffset))
            else ucodeOffset in
          if size <? ucodeDescOffset + sizeof_FalconUcodeDescV3 then
            scanEntries n' data size fwsecStart isAdaFormat entrySize
              entryOffset info
          else extractUcode data size ucodeOffset ucodeDescOffset storedSz info
      else
        scanEntries n' data size fwsecStart isAdaFormat entrySize
          (u32 (entryOffset + entrySize)) info
    else Some info
  end.

(** Whether the located table "looks invalid" (NVDAALGsp.cpp:589). *)
Definition pmuLooksInvalid (data : list Z) (off : Z) : bool :=
  (rd8 data (off + pmu_entryCount) =? 0)
  || (10 <? rd8 data (off + pmu_version))
  || (rd8 data (off + pmu_entrySize) <? 4)
  || (200 <? rd8 data (off + pmu_entrySize)).

(** Step 4, the Ada path over the offsets of token 0x50. *)
Definition token50Lookup (data : list Z) (size : Z)
    (pmuTokenOffset pmuTokenDataSize : Z) : Z :=
  scanCandidates (Z.to_nat (Z.min (pmuTokenDataSize / 4) 64)) data size
    pmuTokenOffset 0.

Definition invalidate : M unit :=
  modify (fun g => set_fwsecInfo (set_valid false (fwsecInfo g)) g).

Definition parseVbios (data : list Z) (size : Z) : M bool :=
  match scanImages (Z.to_nat (size / 512 + 2)) data size 0 0 0 with
  | None => hang
  | Some (fwsecStart, fwsecLen) =>
    (if fwsecStart =? 0 then ret tt
     else modify (set_fwsecImage fwsecStart fwsecLen)) ;;;
    (* the loop that computes lastImageStart has no exit but its bound *)
    if 4294967296 - 512 <? u64 (size - 2) then hang
    else
    match findBit (Z.to_nat size + 1) data size 0 with
    | None => hang
    | Some found =>
      let bitOffset := default 0 found in
      let imageBase :=
        match found with
        | Some _ => findImageBase (Z.to_nat (size / 512 + 1)) data size 0
                      bitOffset 0
        | None => 0
        end in
      if bitOffset =? 0 then invalidate ;;; ret true
      else
        let headerSize := rd8 data (bitOffset + bit_headerSize) in
        let tokenSize := rd8 data (bitOffset + bit_tokenSize) in
        let tokenCount := rd8 data (bitOffset + bit_tokenCount) in
        let '(pmuTokenOffset, pmuTokenDataSize, falconDataOffset) :=
          scanTokens (Z.to_nat tokenCount) data size imageBase tokenSize
            (u32 (bitOffset + headerSize)) 0 0 0 in
        (* Step 4: token 0x50 *)
        let useToken50 :=
          negb (pmuTokenOffset =? 0) && (2 <=? pmuTokenDataSize) in
        if useToken50 && (size <? u32 (pmuTokenOffset + pmuTokenDataSize))
        then ret false
        else
        let fromToken50 :=
          if useToken50
          then token50Lookup data size pmuTokenOffset pmuTokenDataSize
          else 0 in
        (if useToken50 && (fromToken50 =? 0)
         then IOLog LogPatternSearch else ret tt) ;;;
        (* Step 4b: token 0x70 *)
        let useToken70 := (fromToken50 =? 0) && negb (falconDataOffset =? 0) in
        if useToken70 && (size <? falconDataOffset + sizeof_BitFalconData)
        then ret false
        else
        let pmuTableOffset :=
          if useToken70 then u32 (imageBase + rd32 data falconDataOffset)
          else fromToken50 in
        let pmuHdr :=
          if useToken70
          then pmuTableOffset + sizeof_PmuLookupTableHeader <=? size
          else negb (fromToken50 =? 0) in
        (* Step 5 *)
        if (pmuTableOffset =? 0) || negb pmuHdr then
          IOLog LogNoPmuTable ;;; invalidate ;;; ret true
        else
        match (if pmuLooksInvalid data pmuTableOffset
               then patternSearch (Z.to_nat (size / 4 + 1)) data size 0x9000
               else Some None) with
        | None => hang
        | Some searched =>
          let pmuTableOffset := default pmuTableOffset searched in
          let headerSize := rd8 data (pmuTableOffset + pmu_headerSize) in
          let entrySize := rd8 data (pmuTableOffset + pmu_entrySize) in
          let entryCount := rd8 data (pmuTableOffset + pmu_entryCount) in
          let isAdaFormat := (headerSize =? 6) && (entrySize =? 6) in
          let* old := gets fwsecInfo in
          match scanEntries (Z.to_nat entryCount) data size fwsecStart
                  isAdaFormat entrySize (u32 (pmuTableOffset + headerSize))
                  old with
          | None => hang
          | Some info => modify (set_fwsecInfo info) ;;; ret true
          end
        end
    end
  end.

(** ** WPR2 check and Falcon controller (NVDAALGsp.cpp:733-925, 1297) *)

Definition checkWpr2Setup : M bool :=
  let* wpr2HiReg := readReg NV_PFB_PRI_MMU_WPR2_ADDR_HI in
  let* wpr2LoReg := readReg NV_PFB_PRI_MMU_WPR2_ADDR_LO in
  if NV_PFB_WPR2_ENABLED wpr2HiReg then
    let hi := Z.lor (Z.shiftl (Z.land wpr2HiReg 0xFFFFF) 32)
                    (Z.land wpr2LoReg 0xFFF00000) in
    let* loVal := readReg NV_PFB_PRI_MMU_WPR2_ADDR_LO_VAL in
    modify (set_wpr2 (Z.shiftl (Z.land loVal 0xFFFFF) 12) hi) ;;;
    ret true
  else ret false.

(** One of the two PIO loops of [loadFalconUcode]: [n] words of [src] go to
    the data port [dat], the control port [ctl] is set every 256 bytes. *)
Fixpoint pioLoad (n : nat) (ctl dat : Z) (src : list Z) (i : Z) : M unit :=
  match n with
  | O => ret tt
  | S n' =>
    (if i mod 256 =? 0
     then writeReg ctl (Z.lor (Z.shiftl (i / 256) 8) (Z.shiftl 1 24))
     else ret tt) ;;;
    writeReg dat (rd32 src i) ;;;
    pioLoad n' ctl dat src (i + 4)
  end.

Definition loadFalconUcode (falconBase : Z) (imem : list Z) (imemSz : Z)
    (dmem : list Z) (dmemSz : Z) : M bool :=
  pioLoad (Z.to_nat ((imemSz + 3) / 4))
    (falconBase + FALCON_IMEMC 0) (falconBase + FALCON_IMEMD 0) imem 0 ;;;
  pioLoad (Z.to_nat ((dmemSz + 3) / 4))
    (falconBase + FALCON_DMEMC 0) (falconBase + FALCON_DMEMD 0) dmem 0 ;;;
  ret true.

(** [for (wait = 0; wait < 1000; wait++)] on [DMATRFCMD.IDLE]. *)
Fixpoint dmaWait (n : nat) (falconBase : Z) : M unit :=
  match n with
  | O => ret tt
  | S n' =>
    let* status := readReg (falconBase + FALCON_DMATRFCMD) in
    if testmask status FALCON_DMA_CMD_IDLE then ret tt
    else IODelay 10 ;;; dmaWait n' falconBase
  end.

Fixpoint dmaBlocks (n : nat) (falconBase : Z) (offset : Z) : M unit :=
  match n with
  | O => ret tt
  | S n' =>
    writeReg (falconBase + FALCON_DMATRFMOFFS) offset ;;;
    writeReg (falconBase + FALCON_DMATRFFBOFFS) offset ;;;
    writeReg (falconBase + FALCON_DMATRFCMD) FALCON_DMA_CMD_IMEM ;;;
    dmaWait 1000 falconBase ;;;
    dmaBlocks n' falconBase (offset + 256)
  end.

Definition loadFalconUcodeDma (falconBase fwPhys fwSize bootVector : Z)
  : M bool :=
  writeReg (falconBase + FALCON_CPUCTL) 0 ;;;
  IODelay 100 ;;;
  let* hwcfg := readReg (falconBase + FALCON_HWCFG) in
  writeReg (falconBase + FALCON_ITFEN) FALCON_ITFEN_DTFEN ;;;
  writeReg (falconBase + FALCON_FBIF_TRANSCFG 0)
    FALCON_TRANSCFG_TARGET_NON_COHERENT ;;;
  writeReg (falconBase + FALCON_FBIF_TRANSCFG 1)
    FALCON_TRANSCFG_TARGET_NON_COHERENT ;;;
  writeReg (falconBase + FALCON_FBIF_CTL)
    (Z.lor FALCON_FBIF_CTL_ALLOW_PHYS FALCON_FBIF_CTL_ALLOW_PHYS_NO_CTX) ;;;
  writeReg (falconBase + FALCON_DMATRFBASE) (Z.shiftr fwPhys 8) ;;;
  writeReg (falconBase + FALCON_DMATRFBASE1) (Z.shiftr fwPhys 40) ;;;
  let* readBack := readReg (falconBase + FALCON_DMATRFBASE) in
  dmaBlocks (Z.to_nat ((fwSize + 255) / 256)) falconBase 0 ;;;
  writeReg (falconBase + FALCON_BOOTVEC) bootVector ;;;
  writeReg (falconBase + FALCON_CPUCTL) FALCON_CPUCTL_STARTCPU ;;;
  ret true.

(** A bounded wait on a halted bit; [extra] is the second register the
    loop reads every turn for its log line. *)
Fixpoint haltWait (n : nat) (ctl halted extra : Z) : M unit :=
  match n with
  | O => ret tt
  | S n' =>
    let* cpuctl := readReg ctl in
    let* diag := readReg extra in
    if testmask cpuctl halted then ret tt
    else IODelay 1000 ;;; haltWait n' ctl halted extra
  end.

Definition executeFwsecViaBrom : M bool :=
  let* vbios := gets fwsecMem in
  let* info := gets fwsecInfo in
  match vbios with
  | None => ret false
  | Some _ =>
    if negb (valid info) then ret false
    else
      let* phys := gets fwsecPhys in
      let fwsecFwPhys := u64 (phys + fwOffset info) in
      let* bcrCtrl := readReg NV_PRISCV_RISCV_BCR_CTRL in
      writeReg NV_PRISCV_RISCV_BCR_DMEM_ADDR (Z.shiftr fwsecFwPhys 8) ;;;
      writeReg NV_PRISCV_RISCV_BCR_CTRL NV_PRISCV_RISCV_BCR_CTRL_VALID ;;;
      haltWait 5000 NV_PRISCV_RISCV_CPUCTL NV_PRISCV_CPUCTL_HALTED
        NV_PRISCV_RISCV_BR_RETCODE ;;;
      checkWpr2Setup
  end.

(** ** Secure bring-up: executeFwsecFrts (NVDAALGsp.cpp:1323) *)

(** Method 2's wait: [Some b] is [return b] out of [executeFwsecFrts],
    [None] falls through to method 3. *)
Fixpoint dmaHaltWait (n : nat) : M (option bool) :=
  match n with
  | O => ret None
  | S n' =>
    let* cpuctl := readReg NV_PGSP_FALCON_CPUCTL in
    if testmask cpuctl FALCON_CPUCTL_HALTED then
      let* ok := checkWpr2Setup in
      if ok then ret (Some true) else ret None
    else IODelay 1000 ;;; dmaHaltWait n'
  end.

Definition fwsecViaPio (vbiosData : list Z) (vbiosSize : Z) : M bool :=
  writeReg NV_PGSP_FALCON_CPUCTL 0 ;;;
  IODelay 100 ;;;
  let* info := gets fwsecInfo in
  if (vbiosSize <? u32 (imemOffset info + imemSize info))
     || (vbiosSize <? u32 (dmemOffset info + dmemSize info))
  then ret false
  else
    let* r := IOMalloc (dmemSize info) in
    match r with
    | None => ret false
    | Some dmemCopy =>
      modify (fun g =>
        set_mem (mem_store (mem g) dmemCopy 0
                   (rdbytes vbiosData (dmemOffset info) (dmemSize info))) g) ;;;
      (if (0 <? dmemMapperOffset info)
          && (dmemMapperOffset info + sizeof_DmemMapperHeader
              <=? dmemSize info)
       then store32 dmemCopy (dmemMapperOffset info + DmemMapper_initCmd)
              DMEMMAPPER_CMD_FRTS
       else ret tt) ;;;
      let* patched := gets (fun g => block_of (mem g) dmemCopy) in
      let* loaded :=
        loadFalconUcode NV_PGSP_BASE
          (drop (Z.to_nat (imemOffset info)) vbiosData) (imemSize info)
          patched (dmemSize info) in
      IOFree dmemCopy (dmemSize info) ;;;
      if negb loaded then ret false
      else
        writeReg (NV_PGSP_BASE + FALCON_BOOTVEC) (bootVec info) ;;;
        writeReg NV_PGSP_FALCON_CPUCTL FALCON_CPUCTL_STARTCPU ;;;
        haltWait 1000 NV_PGSP_FALCON_CPUCTL FALCON_CPUCTL_HALTED
          NV_PBUS_SW_SCRATCH_0E ;;;
        checkWpr2Setup
    end.

Definition fwsecViaDma (vbiosData : list Z) (vbiosSize : Z) : M bool :=
  let* info := gets fwsecInfo in
  let* phys := gets fwsecPhys in
  let* early :=
    if negb (phys =? 0) && (0 <? storedSize info) then
      let fwsecFwPhys := u64 (phys + fwOffset info) in
      let* started :=
        loadFalconUcodeDma NV_PGSP_BASE fwsecFwPhys (storedSize info)
          (bootVec info) in
      if started then dmaHaltWait 1000 else ret None
    else ret None in
  match early with
  | Some b => ret b
  | None => fwsecViaPio vbiosData vbiosSize
  end.

Definition executeFwsecFrts : M bool :=
  let* wpr2HiReg := readReg NV_PFB_PRI_MMU_WPR2_ADDR_HI in
  let* wpr2LoReg := readReg NV_PFB_PRI_MMU_WPR2_ADDR_LO in
  let* already := checkWpr2Setup in
  if already then ret true
  else
    let* vbios := gets fwsecMem in
    match vbios with
    | None => ret false
    | Some vbiosData =>
      let vbiosSize := Z.of_nat (length vbiosData) in
      let* info := gets fwsecInfo in
      let* parsed :=
        if negb (valid info) then parseVbios vbiosData vbiosSize
        else ret true in
      if negb parsed then ret false
      else
        let* info := gets fwsecInfo in
        if negb (valid info) then ret false
        else
          let* phys := gets fwsecPhys in
          let* viaBrom :=
            if (0 <? storedSize info) && negb (phys =? 0)
            then executeFwsecViaBrom else ret false in
          if viaBrom then ret true
          else fwsecViaDma vbiosData vbiosSize
    end.

(** ** startRiscv (NVDAALGsp.cpp:1607) *)

Definition testBases : list Z :=
  [0x110000; 0x111000; 0x112000; 0x113000; 0x117000; 0x118000; 0x119000].

Fixpoint probeBases (bases : list Z) : M unit :=
  match bases with
  | [] => ret tt
  | base :: rest =>
    let* val388 := readReg (base + 0x388) in
    let* val100 := readReg (base + 0x100) in
    probeBases rest
  end.

(** [for (i = 0; i < 100; i++)]: [n] turns are left, [i] is the counter. *)
Fixpoint activeWait (n : nat) (i : Z) : M bool :=
  match n with
  | O => ret false
  | S n' =>
    let* status := readReg NV_PRISCV_RISCV_CPUCTL in
    let* retcode := readReg NV_PRISCV_RISCV_BR_RETCODE in
    if testmask status NV_PRISCV_CPUCTL_ACTIVE then ret true
    else
      (if negb (retcode =? 0) && negb (retcode =? 0xbadf5040)
       then IOLog (LogBootError retcode i) else ret tt) ;;;
      IODelay 1000 ;;;
      activeWait n' (i + 1)
  end.

Definition startRiscv : M bool :=
  probeBases testBases ;;;
  let* preCpuctl := readReg NV_PRISCV_RISCV_CPUCTL in
  let* preBcrCtrl := readReg NV_PRISCV_RISCV_BCR_CTRL in
  let* meta := gets wprMetaPhys in
  let bcrAddr := u32 (Z.shiftr meta 8) in
  writeReg NV_PRISCV_RISCV_BCR_DMEM_ADDR bcrAddr ;;;
  writeReg NV_PRISCV_RISCV_BCR_CTRL
    (Z.lor NV_PRISCV_RISCV_BCR_CTRL_VALID bcrAddr) ;;;
  writeReg NV_PRISCV_RISCV_CPUCTL NV_PRISCV_CPUCTL_START ;;;
  let* active := activeWait 100 0 in
  if active then ret true
  else
    let* finalCpuctl := readReg NV_PRISCV_RISCV_CPUCTL in
    let* finalRetcode := readReg NV_PRISCV_RISCV_BR_RETCODE in
    let* scratch14 := readReg NV_PGC6_BSI_SECURE_SCRATCH_14 in
    let* mailbox0 := readReg NV_PGSP_FALCON_MAILBOX0 in
    ret false.

(** ** Radix3 page table (NVDAALGsp.cpp:1024)

    The table is the array of 64-bit entries [tableBase] points to: the root
    page is entries 0..511, the L1 pages follow, the L2 pages come last. *)

(** [tbl[base + i] = (phys + i * GSP_PAGE_SIZE) | 1] for the next [n]
    values of [i]. *)
Fixpoint fillLevel (n : nat) (base phys : Z) (i : Z) (tbl : list Z)
  : list Z :=
  match n with
  | O => tbl
  | S n' =>
    fillLevel n' base phys (i + 1)
      (<[Z.to_nat (base + i) := Z.lor (u64 (phys + i * GSP_PAGE_SIZE)) 1]> tbl)
  end.

(** The leaf loop, which gives up at the first page without a physical
    address. *)
Fixpoint fillLeaves (n : nat) (fw : MemDesc) (base : Z) (i : Z)
    (tbl : list Z) : bool * list Z :=
  match n with
  | O => (true, tbl)
  | S n' =>
    let pagePhys := getPhysicalSegment fw (i * GSP_PAGE_SIZE) in
    if pagePhys =? 0 then (false, tbl)
    else fillLeaves n' fw base (i + 1)
           (<[Z.to_nat (base + i) := Z.lor pagePhys 1]> tbl)
  end.

Definition radix3_numPages (size : Z) : Z :=
  u64 (size + GSP_PAGE_SIZE - 1) / GSP_PAGE_SIZE.
Definition radix3_numL2 (size : Z) : Z := (radix3_numPages size + 511) / 512.
Definition radix3_numL1 (size : Z) : Z := (radix3_numL2 size + 511) / 512.
Definition radix3_tableSize (size : Z) : Z :=
  u64 ((1 + radix3_numL1 size + radix3_numL2 size) * GSP_PAGE_SIZE).

Definition allocDmaBuffer (size : Z) : M (option Z) :=
  fun g =>
    let '(r, w) := dma_alloc (world g) size in
    Some (r, set_world w g).

Definition buildRadix3PageTable (size : Z) : M bool :=
  let numPages := radix3_numPages size in
  let numL2Tables := radix3_numL2 size in
  let numL1Tables := radix3_numL1 size in
  let tableSize := radix3_tableSize size in
  let* r := allocDmaBuffer tableSize in
  match r with
  | None =>
    modify (fun g => set_radix3 None (radix3Phys g) g) ;;; ret false
  | Some tableBasePhys =>
    let zeroed := replicate (Z.to_nat (tableSize / 8)) 0 in
    let l1Table := 512 in
    let l2Table := l1Table + numL1Tables * 512 in
    let l1Phys := u64 (tableBasePhys + GSP_PAGE_SIZE) in
    let l2Phys := u64 (l1Phys + numL1Tables * GSP_PAGE_SIZE) in
    let root := fillLevel (Z.to_nat numL1Tables) 0 l1Phys 0 zeroed in
    let l1 := fillLevel (Z.to_nat numL2Tables) l1Table l2Phys 0 root in
    let* fw := gets firmwareMem in
    match fw with
    | None => hang
    | Some fwDesc =>
      let '(ok, tbl) := fillLeaves (Z.to_nat numPages) fwDesc l2Table 0 l1 in
      modify (set_radix3 (Some tbl) tableBasePhys) ;;;
      ret ok
    end
  end.

End Driver.

(** ** NVDAALVASpace (NVDAALVASpace.cpp) *)
Module NVDAALVASpace.

Record t : Type := {
  vaStart : Z;
  vaLimit : Z;
  currentVaOffset : Z
}.

(** [init()]: the default virtual address range. *)
Definition init (s : t) : bool * t :=
  (true,
   {| vaStart := 0x1000000000;
      vaLimit := 0xFFFFFFFFFF;
      currentVaOffset := 0x1000000000 |}).

(** [(currentVaOffset + (alignment - 1)) & ~(alignment - 1)] on
    [uint64_t]. *)
Definition alignUp (va alignment : Z) : Z :=
  Z.land (u64 (va + u64 (alignment - 1))) (u64 (Z.lnot (u64 (alignment - 1)))).

(** [map(mem, alignment)]: the mapped address (0 for failure) and the
    object afterwards. *)
Definition map (desc : option MemDesc) (alignment : Z) (s : t) : Z * t :=
  match desc with
  | None => (0, s)
  | Some d =>
    let size := getLength d in
    let alignedVa := alignUp (currentVaOffset s) alignment in
    if vaLimit s <? u64 (alignedVa + size) then (0, s)
    else
      (alignedVa,
       {| vaStart := vaStart s;
          vaLimit := vaLimit s;
          currentVaOffset := u64 (alignedVa + size) |})
  end.

End NVDAALVASpace.

(** ** NVDAALChannel (NVDAALChannel.cpp)

    [submit] runs between [IOLockLock] and [IOLockUnlock]; one call is
    modelled as one step. *)
Module NVDAALChannel.

Record NvGpfifoEntry : Type := {
  address : Z;
  length : Z;
  flags : Z
}.

(** [gpfifoRing] is the ring of entries and [userd] the UserD page as
    32-bit words, [None] while the pointer is null. *)
Record t : Type := {
  ringSize : Z;
  put : Z;
  get : Z;
  gpfifoRing : list NvGpfifoEntry;
  userd : option (list Z)
}.

Definition init (c : t) : bool * t :=
  (true,
   {| ringSize := 0x1000;
      put := 0;
      get := 0;
      gpfifoRing := gpfifoRing c;
      userd := userd c |}).

Definition submit (pbGpuAddr pbLength : Z) (c : t) : bool * t :=
  let entry := {| address := pbGpuAddr; length := pbLength; flags := 1 |} in
  let ring := <[Z.to_nat (put c) := entry]> (gpfifoRing c) in
  let put' := u32 (put c + 1) mod ringSize c in
  (true,
   {| ringSize := ringSize c;
      put := put';
      get := get c;
      gpfifoRing := ring;
      userd := option_map (fun u => <[0%nat := put']> u) (userd c) |}).

End NVDAALChannel.

(** ** Concrete hosts, catalog and layout used by the examples *)

(** A scriptable device: a register file, and what stores and delays do to
    it.  [sim_dma] is the next bus address [dma_alloc] hands out; it fails
    once [sim_dma_left] is too small. *)
Record Sim : Type := {
  sim_regs : gmap Z Z;
  sim_on_store : Z -> Z -> gmap Z Z -> gmap Z Z;
  sim_on_delay : Z -> gmap Z Z -> gmap Z Z;
  sim_dma : Z;
  sim_dma_left : Z
}.

Definition sim_load (s : Sim) (a : Z) : Z := default 0 (sim_regs s !! a).

Definition sim_store (s : Sim) (a v : Z) : Sim :=
  {| sim_regs := sim_on_store s a v (sim_regs s);
     sim_on_store := sim_on_store s;
     sim_on_delay := sim_on_delay s;
     sim_dma := sim_dma s;
     sim_dma_left := sim_dma_left s |}.

Definition sim_delay (s : Sim) (us : Z) : Sim :=
  {| sim_regs := sim_on_delay s us (sim_regs s);
     sim_on_store := sim_on_store s;
     sim_on_delay := sim_on_delay s;
     sim_dma := sim_dma s;
     sim_dma_left := sim_dma_left s |}.

Definition sim_alloc (s : Sim) (n : Z) : option Z * Sim :=
  if sim_dma_left s <? n then (None, s)
  else
    (Some (sim_dma s),
     {| sim_regs := sim_regs s;
        sim_on_store := sim_on_store s;
        sim_on_delay := sim_on_delay s;
        sim_dma := sim_dma s + GSP_PAGE_SIZE * ((n + GSP_PAGE_SIZE - 1) / GSP_PAGE_SIZE);
        sim_dma_left := sim_dma_left s - n |}).

#[export] Instance simHost : Host Sim := {
  bar0_load := sim_load;
  bar0_store := sim_store;
  io_delay := sim_delay;
  dma_alloc := sim_alloc
}.

(** A device that remembers what is stored and does nothing else. *)
Definition plainDevice (regs : gmap Z Z) : Sim :=
  {| sim_regs := regs;
     sim_on_store := fun a v r => <[a := v]> r;
     sim_on_delay := fun _ r => r;
     sim_dma := 0x10000000;
     sim_dma_left := 0x10000000 |}.

(** The Ada register catalog.  Addresses and bits the repository documents
    (Docs/ARCHITECTURE.md, EFI/NvdaalFwsec/falcon.h, the comments of
    NVDAALGsp.cpp) have those values; what no document states has a
    stand-in value, marked so, on which no example depends. *)
#[export] Instance adaRegs : Regs := {
  NV_PFB_PRI_MMU_WPR2_ADDR_LO := 0x1FA824;
  NV_PFB_PRI_MMU_WPR2_ADDR_HI := 0x1FA828;
  NV_PFB_PRI_MMU_WPR2_ADDR_LO_VAL := 0x1FA820 (* stand-in *);
  NV_PFB_WPR2_ENABLED := fun v => Z.testbit v 31;
  NV_PRISCV_RISCV_CPUCTL := 0x110388;
  NV_PRISCV_RISCV_BR_RETCODE := 0x110400;
  NV_PRISCV_RISCV_BCR_CTRL := 0x111668 (* stand-in *);
  NV_PRISCV_RISCV_BCR_DMEM_ADDR := 0x11166C (* stand-in *);
  NV_PRISCV_RISCV_BCR_CTRL_VALID := 0x1;
  NV_PRISCV_CPUCTL_HALTED := 0x10;
  NV_PRISCV_CPUCTL_ACTIVE := 0x80 (* stand-in *);
  NV_PRISCV_CPUCTL_START := 0x2;
  NV_PGSP_BASE := 0x110000;
  NV_PGSP_FALCON_CPUCTL := 0x110100;
  NV_PGSP_FALCON_MAILBOX0 := 0x110040;
  NV_PGSP_QUEUE_TAIL := fun i => 0x110C80 + 8 * i;
  GSP_CMDQ_IDX := 0;
  NV_PBUS_SW_SCRATCH_0E := 0x1454;
  NV_PGC6_BSI_SECURE_SCRATCH_14 := 0x1180F8 (* stand-in *);
  FALCON_CPUCTL := 0x100;
  FALCON_CPUCTL_STARTCPU := 0x2;
  FALCON_CPUCTL_HALTED := 0x10;
  FALCON_BOOTVEC := 0x104;
  FALCON_HWCFG := 0x108;
  FALCON_ITFEN := 0x48;
  FALCON_ITFEN_DTFEN := 0x4 (* stand-in *);
  FALCON_FBIF_TRANSCFG := fun i => 0x600 + 4 * i;
  FALCON_TRANSCFG_TARGET_NON_COHERENT := 0x5;
  FALCON_FBIF_CTL := 0x624;
  FALCON_FBIF_CTL_ALLOW_PHYS := 0x80 (* stand-in *);
  FALCON_FBIF_CTL_ALLOW_PHYS_NO_CTX := 0x10 (* stand-in *);
  FALCON_DMATRFBASE := 0x110;
  FALCON_DMATRFBASE1 := 0x128;
  FALCON_DMATRFMOFFS := 0x114;
  FALCON_DMATRFFBOFFS := 0x118;
  FALCON_DMATRFCMD := 0x11C;
  FALCON_DMA_CMD_IMEM := 0x10;
  FALCON_DMA_CMD_IDLE := 0x2;
  FALCON_IMEMC := fun i => 0x180 + 16 * i;
  FALCON_IMEMD := fun i => 0x184 + 16 * i;
  FALCON_DMEMC := fun i => 0x1C0 + 8 * i;
  FALCON_DMEMD := fun i => 0x1C4 + 8 * i;
  NV_VGPU_MSG_FUNCTION_GSP_SET_SYSTEM_INFO := 72 (* stand-in *);
  NV_VGPU_MSG_FUNCTION_GSP_RM_ALLOC := 103 (* stand-in *);
  NV_VGPU_MSG_FUNCTION_GSP_RM_CONTROL := 76 (* stand-in *);
  NV_VGPU_MSG_SIGNATURE_VALID := 0x43505256;
  QUEUE_SIZE := 0x40000
}.

(** A layout for the structures NVDAALGsp.h would declare: packed, fields in
    the order [parseVbios] stores them, a 28-byte PCIR header, a 24-byte
    binary header with [headerOffset] as its fourth 32-bit word, and the
    DMEM mapper with [initCmd] at 0x20. *)
#[export] Instance packedLayout : Layout := {
  sizeof_VbiosPcirHeader := 28;
  sizeof_PmuLookupTableHeader := 6;
  sizeof_BitFalconData := 8;
  sizeof_NvfwBinHdr := 24;
  NvfwBinHdr_headerOffset := 12;
  sizeof_FalconUcodeDescV3 := 36;
  ucode_imemOffset := 0;
  ucode_imemSize := 4;
  ucode_imemSecureSize := 8;
  ucode_dmemOffset := 12;
  ucode_dmemSize := 16;
  ucode_sigOffset := 20;
  ucode_sigSize := 24;
  ucode_bootVec := 28;
  ucode_dataSize := 32;
  sizeof_DmemMapperHeader := 44;
  DmemMapper_initCmd := 0x20
}.

Definition mem_empty : Mem :=
  {| blocks := ∅; next_blk := 0%nat; heap_left := 0x100000;
     junk := fun _ => 0xAA |}.

(** A driver right after [init]: queues allocated and zeroed, nothing
    loaded, GSP not ready. *)
Definition freshGsp (w : Sim) : Gsp Sim :=
  {| world := w; trace := []; mem := mem_empty; gspReady := false;
     rpcSeqNum := 0;
     cmdQueue := Some (replicate (Z.to_nat QUEUE_SIZE) 0);
     cmdQueueHead := 0; cmdQueueTail := 0;
     fwsecMem := None; fwsecPhys := 0; firmwareMem := None;
     radix3Mem := None; radix3Phys := 0; wprMetaPhys := 0x20000000;
     wpr2Lo := 0; wpr2Hi := 0; fwsecInfo := fwsecInfo_zero;
     fwsecImageOffset := 0; fwsecImageSize := 0 |}.

(** * Vocabulary of the properties *)

Section Statements.
Context {W : Type} `{!Host W} `{!Regs} `{!Layout}.

Definition enqueued (g : Gsp W) (msg : Ptr) (size : Z) : Gsp W :=
  let tail := cmdQueueTail g in
  let alignedSize := align256 (u64 (sizeof_GspQueueElement + size)) in
  let newTail := u32 ((tail + alignedSize) mod QUEUE_SIZE) in
  let r0 := ring_bytes g in
  let r1 := wr32 r0 (tail + elem_seqNum) (rpcSeqNum g) in
  let r2 := wr32 r1 (tail + elem_elemCount) (u32 ((alignedSize + 0xFFF) / 0x1000)) in
  let r3 := wr32 r2 (tail + elem_reserved) 0 in
  let r4 := wrbytes r3 (tail + elem_data) (mem_load (mem g) msg size) in
  let r5 := wr32 r4 (tail + elem_checkSum)
              (calcChecksum (rdbytes r4 (tail + elem_data) size)) in
  mkGsp (bar0_store (world g) (NV_PGSP_QUEUE_TAIL GSP_CMDQ_IDX) (u32 newTail))
    (trace g ++ [EvWrite (NV_PGSP_QUEUE_TAIL GSP_CMDQ_IDX) (u32 newTail)])
    (mem g) (gspReady g) (u32 (rpcSeqNum g + 1)) (Some r5)
    (cmdQueueHead g) newTail (fwsecMem g) (fwsecPhys g)
    (firmwareMem g) (radix3Mem g) (radix3Phys g) (wprMetaPhys g) (wpr2Lo g)
    (wpr2Hi g) (fwsecInfo g) (fwsecImageOffset g) (fwsecImageSize g).

Definition enqueueSucceeds (g : Gsp W) (size : Z) : bool :=
  match cmdQueue g with
  | None => false
  | Some _ =>
    align256 (u64 (sizeof_GspQueueElement + size))
    <=? freeSpace (cmdQueueHead g) (cmdQueueTail g)
  end.

Definition not_rm_status (e : Event) : Prop :=
  forall st, e <> EvLog (LogRmStatus st).

(** What a callee leaves of the caller's kernel memory and of the log. *)
Record frame (g g' : Gsp W) : Prop := {
  frame_blocks : forall b, (b < next_blk (mem g))%nat ->
                 blocks (mem g') !! b = blocks (mem g) !! b;
  frame_next : (next_blk (mem g) <= next_blk (mem g'))%nat;
  frame_heap : heap_left (mem g') = heap_left (mem g);
  frame_trace : exists evs, trace g' = trace g ++ evs /\ Forall not_rm_status evs
}.

Definition sendRpcSucceeds (g : Gsp W) (heapLeft function paramsSize : Z)
  : bool :=
  let msgSize := u64 (sizeof_NvRpcMessageHeader + paramsSize) in
  (gspReady g || (function =? NV_VGPU_MSG_FUNCTION_GSP_SET_SYSTEM_INFO))
  && (msgSize <=? heapLeft)
  && enqueueSucceeds g msgSize.

Definition rmSucceeds (g : Gsp W) (function headerSize paramsSize : Z)
  : bool :=
  let size := u64 (headerSize + paramsSize) in
  if 256 <? size
  then (size <=? heap_left (mem g))
       && sendRpcSucceeds g (heap_left (mem g) - size) function size
  else sendRpcSucceeds g (heap_left (mem g)) function size.

(** The registers [executeFwsecFrts] reads before it decides. *)
Definition wpr2_reads (w : W) : list Event :=
  let hi := u32 (bar0_load w NV_PFB_PRI_MMU_WPR2_ADDR_HI) in
  let lo := u32 (bar0_load w NV_PFB_PRI_MMU_WPR2_ADDR_LO) in
  [EvRead NV_PFB_PRI_MMU_WPR2_ADDR_HI hi;
   EvRead NV_PFB_PRI_MMU_WPR2_ADDR_LO lo;
   EvRead NV_PFB_PRI_MMU_WPR2_ADDR_HI hi;
   EvRead NV_PFB_PRI_MMU_WPR2_ADDR_LO lo;
   EvRead NV_PFB_PRI_MMU_WPR2_ADDR_LO_VAL
     (u32 (bar0_load w NV_PFB_PRI_MMU_WPR2_ADDR_LO_VAL))].

(** The world at the [k]-th poll of a 1 ms polling loop that starts in [w]. *)
Definition pollWorld (w : W) (k : nat) : W :=
  Nat.iter k (fun w' => io_delay w' 1000) w.

Definition activeAt (w : W) : bool :=
  testmask (u32 (bar0_load w NV_PRISCV_RISCV_CPUCTL)) NV_PRISCV_CPUCTL_ACTIVE.

Definition retcodeAt (w : W) : Z :=
  u32 (bar0_load w NV_PRISCV_RISCV_BR_RETCODE).

Definition isBootError (retcode : Z) : bool :=
  negb (retcode =? 0) && negb (retcode =? 0xbadf5040).

(** The world once [startRiscv] has programmed the BCR and written START. *)
Definition startedWorld (g : Gsp W) : W :=
  let bcrAddr := u32 (Z.shiftr (wprMetaPhys g) 8) in
  bar0_store
    (bar0_store
       (bar0_store (world g) NV_PRISCV_RISCV_BCR_DMEM_ADDR (u32 bcrAddr))
       NV_PRISCV_RISCV_BCR_CTRL
       (u32 (Z.lor NV_PRISCV_RISCV_BCR_CTRL_VALID bcrAddr)))
    NV_PRISCV_RISCV_CPUCTL (u32 NV_PRISCV_CPUCTL_START).

Definition no_log (evs : list Event) : Prop :=
  forall line, ~ In (EvLog line) evs.

(** What [parseVbios] has checked about a descriptor it accepted: the
    descriptor itself lies in the image; the fields are copied from it. *)
Definition extractedFrom (data : list Z) (size : Z) (info : FalconUcodeInfo)
  : Prop :=
  0 <= fwOffset info
  /\ fwOffset info + sizeof_FalconUcodeDescV3 <= size
  /\ exists ucodeDescOffset,
       ucodeDescOffset + sizeof_FalconUcodeDescV3 <= size
       /\ imemOffset info
          = u32 (ucodeDescOffset + rd32 data (ucodeDescOffset + ucode_imemOffset))
       /\ imemSize info = rd32 data (ucodeDescOffset + ucode_imemSize)
       /\ dmemOffset info
          = u32 (ucodeDescOffset + rd32 data (ucodeDescOffset + ucode_dmemOffset))
       /\ dmemSize info = rd32 data (ucodeDescOffset + ucode_dmemSize).

End Statements.

(** * Concrete inputs *)

(** A driver with nothing allocated: no queues, no VBIOS, no firmware. *)
Definition bareGsp (w : Sim) : Gsp Sim :=
  {| world := w; trace := []; mem := mem_empty; gspReady := false;
     rpcSeqNum := 0; cmdQueue := None; cmdQueueHead := 0; cmdQueueTail := 0;
     fwsecMem := None; fwsecPhys := 0; firmwareMem := None;
     radix3Mem := None; radix3Phys := 0; wprMetaPhys := 0;
     wpr2Lo := 0; wpr2Hi := 0; fwsecInfo := fwsecInfo_zero;
     fwsecImageOffset := 0; fwsecImageSize := 0 |}.

(** Pieces of a VBIOS image. *)
Definition romHeader (pcirOff : Z) : list Z :=
  [0x55; 0xAA] ++ replicate 22 0 ++ le16 pcirOff.

Definition pcirHeader (imageLength codeType indicator : Z) : list Z :=
  [80; 67; 73; 82] ++ replicate 12 0 ++ le16 imageLength ++ [0; 0]
  ++ [codeType; indicator] ++ replicate 6 0.

Definition bitHeader (tokenCount : Z) : list Z :=
  bitPattern ++ [0; 1] ++ [12; 6; tokenCount; 0].

Definition bitToken (id dataSize dataOffset : Z) : list Z :=
  [id; 1] ++ le16 dataSize ++ le16 dataOffset.

Definition pmuTable1 (appId dataOffset : Z) : list Z :=
  [1; 6; 6; 1; 0; 0] ++ le16 appId ++ le32 dataOffset.

Definition ucodeDesc (imemOff imemSz dmemOff dmemSz dataSz : Z) : list Z :=
  le32 imemOff ++ le32 imemSz ++ le32 0 ++ le32 dmemOff ++ le32 dmemSz
  ++ le32 0 ++ le32 0 ++ le32 0 ++ le32 dataSz.

Definition image (size : Z) (parts : list (Z * list Z)) : list Z :=
  fold_left (fun img p => wrbytes img (fst p) (snd p)) parts
    (replicate (Z.to_nat size) 0).

(** A 1 KiB image cut short: the descriptor at 0x200 announces 64 KiB of
    IMEM at 0x300. *)
Definition truncatedVbios : list Z :=
  image 0x400
    [(0x000, romHeader 0x40);
     (0x040, pcirHeader 2 0 0x80);
     (0x080, bitHeader 1);
     (0x08C, bitToken 0x50 4 0xA0);
     (0x0A0, le32 0x100);
     (0x100, pmuTable1 0x85 0x200);
     (0x200, ucodeDesc 0x100 0x10000 0x10100 0x1000 0x11100)].

(** A 37 KiB image whose only BIT token is 0x50, pointing at an offset
    without a PMU table, and with a PMU table carrying a FWSEC entry at
    0x9000. *)
Definition token50OnlyVbios : list Z :=
  image 0x9400
    [(0x0000, romHeader 0x40);
     (0x0040, pcirHeader 0x4A 0 0x80);
     (0x0080, bitHeader 1);
     (0x008C, bitToken 0x50 4 0xA0);
     (0x00A0, le32 0x100);
     (0x9000, pmuTable1 0x85 0x9100);
     (0x9100, ucodeDesc 0x40 0x100 0x140 0x40 0x180);
     (0x9250, le32 DMEMMAPPER_SIGNATURE)].

(** The same image with a second token, 0x70, whose table offset leads to
    an empty header. *)
Definition token70Vbios : list Z :=
  image 0x9400
    [(0x0000, romHeader 0x40);
     (0x0040, pcirHeader 0x4A 0 0x80);
     (0x0080, bitHeader 2);
     (0x008C, bitToken 0x50 4 0xA0);
     (0x0092, bitToken 0x70 8 0xB0);
     (0x00A0, le32 0x100);
     (0x00B0, le32 0x100);
     (0x9000, pmuTable1 0x85 0x9100);
     (0x9100, ucodeDesc 0x40 0x100 0x140 0x40 0x180);
     (0x9250, le32 DMEMMAPPER_SIGNATURE)].

(** An image whose PMU table, with its FWSEC entry, sits at 0x9002. *)
Definition offGridVbios : list Z :=
  image 0x9400
    [(0x0000, romHeader 0x40);
     (0x0040, pcirHeader 0x4A 0 0x80);
     (0x9002, pmuTable1 0x85 0x9100)].

Definition parseResult (r : option (bool * Gsp Sim))
  : option (bool * FalconUcodeInfo * list Event) :=
  match r with
  | Some (b, g) => Some (b, fwsecInfo g, trace g)
  | None => None
  end.

(** A GSP whose boot ROM reports return code 1 from the start and whose
    core turns active during the first 1 ms wait. *)
Definition lateActiveDevice : Sim :=
  {| sim_regs := {[ NV_PRISCV_RISCV_BR_RETCODE := 1 ]};
     sim_on_store := fun a v r => <[a := v]> r;
     sim_on_delay := fun _ r =>
       <[NV_PRISCV_RISCV_CPUCTL := NV_PRISCV_CPUCTL_ACTIVE]> r;
     sim_dma := 0x10000000;
     sim_dma_left := 0x10000000 |}.

Definition bootResult (r : option (bool * Gsp Sim))
  : option (bool * list LogLine) :=
  match r with
  | Some (b, g) =>
    Some (b, omap (fun e => match e with EvLog l => Some l | _ => None end)
               (trace g))
  | None => None
  end.

Definition is_byteb (b : Z) : bool := (0 <=? b) && (b <? 256).

(** The state [parseVbios] leaves. *)
Definition parsedState (data : list Z) (size : Z) (g : Gsp Sim) : Gsp Sim :=
  match parseVbios data size g with
  | Some (_, g') => g'
  | None => g
  end.

(** WPR2 already carved out: bit 31 of WPR2_ADDR_HI is set. *)
Definition wpr2SetGsp : Gsp Sim :=
  bareGsp (plainDevice {[ NV_PFB_PRI_MMU_WPR2_ADDR_HI := 0x80000001 ]}).

(** A driver with a 9-byte message in block 0 of its memory. *)
Definition msgPtr : Ptr := {| p_blk := 0; p_off := 0 |}.

Definition msgGsp : Gsp Sim :=
  set_mem {| blocks := {[ 0%nat := crc_check_input ]}; next_blk := 1;
             heap_left := 0x100000; junk := fun _ => 0xAA |}
    (freshGsp (plainDevice ∅)).

(** A three-page firmware image whose pages sit at 0x80000000. *)
Definition fwDesc3 : MemDesc :=
  {| getLength := 12288; getPhysicalSegment := fun off => 0x80000000 + off |}.

Definition fwGsp : Gsp Sim :=
  {| world := plainDevice ∅; trace := []; mem := mem_empty; gspReady := false;
     rpcSeqNum := 0; cmdQueue := None; cmdQueueHead := 0; cmdQueueTail := 0;
     fwsecMem := None; fwsecPhys := 0; firmwareMem := Some fwDesc3;
     radix3Mem := None; radix3Phys := 0; wprMetaPhys := 0;
     wpr2Lo := 0; wpr2Hi := 0; fwsecInfo := fwsecInfo_zero;
     fwsecImageOffset := 0; fwsecImageSize := 0 |}.

Definition blankGsp : Gsp Sim := bareGsp (plainDevice ∅).




(** A full ring: [put + 1 = get], every slot but [put] holds an entry the
    GPU has not fetched yet. *)
Definition fullChannel : NVDAALChannel.t :=
  {| NVDAALChannel.ringSize := 0x1000;
     NVDAALChannel.put := 5;
     NVDAALChannel.get := 6;
     NVDAALChannel.gpfifoRing :=
       replicate 4096
         {| NVDAALChannel.address := 0xDEAD000; NVDAALChannel.length := 64;
            NVDAALChannel.flags := 1 |};
     NVDAALChannel.userd := Some (replicate 1024 0) |}.

(** * Properties *)

Lemma u8_range x : 0 <= u8 x < 256.
Proof. unfold u8. apply Z.mod_pos_bound. lia. Qed.

Lemma u32_range x : 0 <= u32 x < 4294967296.
Proof. unfold u32. apply Z.mod_pos_bound. lia. Qed.

Lemma u64_range x : 0 <= u64 x < 18446744073709551616.
Proof. unfold u64. apply Z.mod_pos_bound. lia. Qed.

Lemma u8_small x : 0 <= x < 256 -> u8 x = x.
Proof. intros. unfold u8. apply Z.mod_small. lia. Qed.

Lemma u32_small x : 0 <= x < 4294967296 -> u32 x = x.
Proof. intros. unfold u32. apply Z.mod_small. lia. Qed.

Lemma u64_small x : 0 <= x < 18446744073709551616 -> u64 x = x.
Proof. intros. unfold u64. apply Z.mod_small. lia. Qed.

Lemma length_wr8 buf off v : length (wr8 buf off v) = length buf.
Proof. unfold wr8. apply length_insert. Qed.

Lemma length_wr32 buf off v : length (wr32 buf off v) = length buf.
Proof. unfold wr32. by rewrite !length_wr8. Qed.

Lemma length_wrbytes src : forall buf off, length (wrbytes buf off src) = length buf.
Proof. induction src as [|b src IH]; intros; simpl; [done|]. by rewrite IH, length_wr8. Qed.

Lemma rd8_wr8_same buf off v :
  0 <= off < Z.of_nat (length buf) -> rd8 (wr8 buf off v) off = u8 v.
Proof.
  intros H. unfold rd8, wr8. rewrite list_lookup_insert_eq; [done|lia].
Qed.

Lemma rd8_wr8_other buf off off' v :
  0 <= off -> 0 <= off' -> off <> off' -> rd8 (wr8 buf off v) off' = rd8 buf off'.
Proof.
  intros H1 H2 H3. unfold rd8, wr8. rewrite list_lookup_insert_ne; [done|lia].
Qed.

Lemma rd32_wr32_same buf off v :
  0 <= off -> off + 4 <= Z.of_nat (length buf) ->
  rd32 (wr32 buf off v) off = u32 v.
Proof.
  intros H1 H2. unfold rd32, wr32.
  rewrite (rd8_wr8_same _ (off + 3)) by (rewrite !length_wr8; lia).
  rewrite (rd8_wr8_other _ (off + 3) (off + 2)) by lia.
  rewrite (rd8_wr8_same _ (off + 2)) by (rewrite !length_wr8; lia).
  rewrite (rd8_wr8_other _ (off + 3) (off + 1)) by lia.
  rewrite (rd8_wr8_other _ (off + 2) (off + 1)) by lia.
  rewrite (rd8_wr8_same _ (off + 1)) by (rewrite !length_wr8; lia).
  rewrite (rd8_wr8_other _ (off + 3) off) by lia.
  rewrite (rd8_wr8_other _ (off + 2) off) by lia.
  rewrite (rd8_wr8_other _ (off + 1) off) by lia.
  rewrite (rd8_wr8_same _ off) by lia.
  unfold u8, u32.
  Z.div_mod_to_equations; lia.
Qed.

Lemma rd8_wr32_other buf off off' v :
  0 <= off -> 0 <= off' -> (off' < off \/ off + 4 <= off') ->
  rd8 (wr32 buf off v) off' = rd8 buf off'.
Proof.
  intros H1 H2 H3. unfold wr32. rewrite !rd8_wr8_other by lia. done.
Qed.

Lemma rd32_wr32_other buf off off' v :
  0 <= off -> 0 <= off' -> (off' + 4 <= off \/ off + 4 <= off') ->
  rd32 (wr32 buf off v) off' = rd32 buf off'.
Proof.
  intros H1 H2 H3. unfold rd32. rewrite !rd8_wr32_other by lia. done.
Qed.

Lemma rd8_wrbytes_other src : forall buf off off',
  0 <= off -> 0 <= off' ->
  (off' < off \/ off + Z.of_nat (length src) <= off') ->
  rd8 (wrbytes buf off src) off' = rd8 buf off'.
Proof.
  induction src as [|b src IH]; intros buf off off' H1 H2 H3; simpl; [done|].
  simpl in H3. rewrite IH by lia. apply rd8_wr8_other; lia.
Qed.

Lemma rd8_wrbytes_in src : forall buf off (k : nat),
  0 <= off -> off + Z.of_nat (length src) <= Z.of_nat (length buf) ->
  (k < length src)%nat ->
  rd8 (wrbytes buf off src) (off + Z.of_nat k) = u8 (default 0 (src !! k)).
Proof.
  induction src as [|b src IH]; intros buf off k H1 H2 H3; simpl in *; [lia|].
  destruct k as [|k].
  - rewrite Z.add_0_r. rewrite rd8_wrbytes_other by lia.
    simpl. apply rd8_wr8_same. lia.
  - replace (off + Z.of_nat (S k)) with ((off + 1) + Z.of_nat k) by lia.
    rewrite IH; [done|lia|rewrite length_wr8; lia|lia].
Qed.

Lemma length_rdbytes buf off n : length (rdbytes buf off n) = Z.to_nat n.
Proof. unfold rdbytes. by rewrite length_map, length_seq. Qed.

Lemma rdbytes_lookup buf off n (k : nat) :
  (k < Z.to_nat n)%nat ->
  rdbytes buf off n !! k = Some (rd8 buf (off + Z.of_nat k)).
Proof.
  intros H. unfold rdbytes. rewrite list_lookup_fmap.
  rewrite lookup_seq_lt by done. done.
Qed.

Lemma rdbytes_wrbytes buf off src :
  0 <= off -> off + Z.of_nat (length src) <= Z.of_nat (length buf) ->
  Forall is_byte src ->
  rdbytes (wrbytes buf off src) off (Z.of_nat (length src)) = src.
Proof.
  intros H1 H2 Hb. apply list_eq. intros k.
  destruct (decide (k < length src)%nat) as [Hk|Hk].
  - rewrite rdbytes_lookup by lia. rewrite rd8_wrbytes_in by (done || lia).
    destruct (src !! k) as [b|] eqn:E.
    + simpl. f_equal. apply u8_small.
      eapply Forall_lookup_1 in Hb; eauto.
    + apply lookup_ge_None in E. lia.
  - rewrite !lookup_ge_None_2; [done|lia|rewrite length_rdbytes; lia].
Qed.

Lemma rdbytes_ext buf buf' off n :
  (forall k, 0 <= k < n -> rd8 buf (off + k) = rd8 buf' (off + k)) ->
  rdbytes buf off n = rdbytes buf' off n.
Proof.
  intros H. unfold rdbytes. apply map_ext_in. intros k Hk.
  apply in_seq in Hk. apply H. lia.
Qed.

(** CRC *)
Lemma land_1_odd a : Z.land a 1 = if Z.odd a then 1 else 0.
Proof.
  change 1 with (Z.ones 1) at 1. rewrite Z.land_ones by lia.
  change (2 ^ 1) with 2. rewrite Zmod_odd. done.
Qed.

Lemma crc_shift_ref crc : crc_shift crc = crc32_ref_bit crc.
Proof.
  unfold crc_shift, crc32_ref_bit. rewrite land_1_odd.
  destruct (Z.odd crc).
  - reflexivity.
  - change (u32 (- 0)) with 0. rewrite Z.land_0_r, Z.lxor_0_r. done.
Qed.

Lemma lxor_range n a b :
  0 <= n -> 0 <= a < 2 ^ n -> 0 <= b < 2 ^ n -> 0 <= Z.lxor a b < 2 ^ n.
Proof.
  intros Hn Ha Hb. split.
  - apply Z.lxor_nonneg. lia.
  - destruct (Z.eq_dec (Z.lxor a b) 0) as [->|Hne]; [lia|].
    assert (0 <= Z.lxor a b) by (apply Z.lxor_nonneg; lia).
    assert (0 < n).
    { destruct (Z.eq_dec n 0) as [->|]; [|lia].
      change (2 ^ 0) with 1 in *. assert (a = 0) by lia. assert (b = 0) by lia.
      subst. rewrite Z.lxor_0_l in Hne. lia. }
    apply Z.log2_lt_pow2; [lia|].
    eapply Z.le_lt_trans; [apply Z.log2_lxor; lia|].
    apply Z.max_lub_lt.
    + destruct (Z.eq_dec a 0) as [->|]; [simpl; lia|]. apply Z.log2_lt_pow2; lia.
    + destruct (Z.eq_dec b 0) as [->|]; [simpl; lia|]. apply Z.log2_lt_pow2; lia.
Qed.

Lemma crc32_ref_bit_range crc :
  0 <= crc < 4294967296 -> 0 <= crc32_ref_bit crc < 4294967296.
Proof.
  intros H. unfold crc32_ref_bit.
  assert (0 <= Z.shiftr crc 1 < 4294967296).
  { rewrite Z.shiftr_div_pow2 by lia. change (2 ^ 1) with 2.
    Z.div_mod_to_equations; lia. }
  destruct (Z.odd crc); [|done].
  apply (lxor_range 32); lia.
Qed.

Lemma crc32_ref_byte_range crc b :
  0 <= crc < 4294967296 -> is_byte b ->
  0 <= crc32_ref_byte crc b < 4294967296.
Proof.
  intros H Hb. unfold crc32_ref_byte, is_byte in *.
  assert (0 <= Z.lxor crc b < 4294967296) by (apply (lxor_range 32); lia).
  simpl. do 8 apply crc32_ref_bit_range. done.
Qed.

Lemma crc_byte_ref crc b : crc_byte crc b = crc32_ref_byte crc b.
Proof.
  unfold crc_byte, crc32_ref_byte. simpl. by rewrite !crc_shift_ref.
Qed.

Lemma crc_fold_ref bytes : forall crc,
  fold_left crc_byte bytes crc = fold_left crc32_ref_byte bytes crc.
Proof.
  induction bytes as [|b bytes IH]; intros crc; simpl; [done|].
  by rewrite crc_byte_ref, IH.
Qed.

Lemma crc_fold_range bytes : forall crc,
  Forall is_byte bytes -> 0 <= crc < 4294967296 ->
  0 <= fold_left crc32_ref_byte bytes crc < 4294967296.
Proof.
  induction bytes as [|b bytes IH]; intros crc Hb Hc; simpl; [done|].
  inversion Hb; subst. apply IH; [done|]. by apply crc32_ref_byte_range.
Qed.

Lemma u32_lnot c :
  0 <= c < 4294967296 -> u32 (Z.lnot c) = Z.lxor c 0xFFFFFFFF.
Proof.
  intros H. unfold u32, Z.lnot.
  assert (E : Z.lxor c 4294967295 = 4294967295 - c).
  { change 4294967295 with (Z.ones 32).
    apply Z.bits_inj'. intros i Hi.
    rewrite Z.lxor_spec.
    destruct (Z.lt_ge_cases i 32).
    - rewrite Z.ones_spec_low by lia.
      replace (Z.ones 32 - c) with (Z.lnot c mod 2 ^ 32).
      2:{ unfold Z.lnot. change (Z.ones 32) with (2^32 - 1).
          change (2^32) with 4294967296. Z.div_mod_to_equations; lia. }
      rewrite Z.mod_pow2_bits_low by lia. rewrite Z.lnot_spec by lia.
      by destruct (Z.testbit c i).
    - rewrite Z.ones_spec_high by lia.
      rewrite (Z.bits_above_log2 c i).
      2: lia.
      2:{ destruct (Z.eq_dec c 0) as [->|]; [simpl; lia|].
          assert (Z.log2 c < 32) by (apply Z.log2_lt_pow2; lia). lia. }
      rewrite (Z.bits_above_log2 (Z.ones 32 - c) i); [done| |].
      + change (Z.ones 32) with 4294967295. lia.
      + change (Z.ones 32) with 4294967295.
        destruct (Z.eq_dec (4294967295 - c) 0) as [->|]; [simpl; lia|].
        assert (Z.log2 (4294967295 - c) < 32) by (apply Z.log2_lt_pow2; lia). lia. }
  rewrite E. Z.div_mod_to_equations; lia.
Qed.

Lemma calcChecksum_ref bytes :
  Forall is_byte bytes -> calcChecksum bytes = crc32_ref bytes.
Proof.
  intros Hb. unfold calcChecksum, crc32_ref. rewrite crc_fold_ref.
  apply u32_lnot. apply crc_fold_range; [done|lia].
Qed.

Lemma calcChecksum_range bytes : 0 <= calcChecksum bytes < 4294967296.
Proof. apply u32_range. Qed.

(** alignment *)
Lemma land_lnot_ones_u64 y k :
  0 <= k < 64 -> 0 <= y < 2 ^ 64 ->
  Z.land y (u64 (Z.lnot (Z.ones k))) = 2 ^ k * (y / 2 ^ k).
Proof.
  intros Hk Hy. unfold u64. change 18446744073709551616 with (2 ^ 64).
  rewrite <- Z.land_ones by lia.
  rewrite Z.land_assoc, (Z.land_comm y), <- Z.land_assoc.
  rewrite (Z.land_ones y 64) by lia. rewrite (Z.mod_small y) by lia.
  rewrite Z.land_comm, <- Z.ldiff_land.
  rewrite Z.ldiff_ones_r by lia.
  rewrite Z.shiftl_mul_pow2, Z.shiftr_div_pow2 by lia. lia.
Qed.

Lemma align256_spec n :
  0 <= n -> n + 255 < 2 ^ 64 ->
  align256 n = 256 * ((n + 255) / 256).
Proof.
  intros H1 H2. unfold align256.
  rewrite (u64_small (n + 255)) by (change 18446744073709551616 with (2^64); lia).
  change 255 with (Z.ones 8) at 3.
  rewrite (land_lnot_ones_u64 _ 8) by lia. done.
Qed.

Section DriverFacts.
Context {W : Type} `{!Host W} `{!Regs} `{!Layout}.

Lemma freeSpace_spec head tail :
  0 < QUEUE_SIZE < 4294967296 ->
  0 <= head < QUEUE_SIZE -> 0 <= tail < QUEUE_SIZE ->
  freeSpace head tail = QUEUE_SIZE - (tail - head) mod QUEUE_SIZE.
Proof.
  intros HQ Hh Ht. unfold freeSpace.
  destruct (Z.leb_spec head tail).
  - rewrite u32_small by lia. rewrite (Z.mod_small (tail - head)) by lia. lia.
  - rewrite u32_small by lia.
    replace (tail - head) with ((tail - head + QUEUE_SIZE) + (-1) * QUEUE_SIZE) by lia.
    rewrite Z.mod_add by lia. rewrite Z.mod_small by lia. lia.
Qed.

Lemma enqueueCommand_full (g : Gsp W) msg size ring :
  cmdQueue g = Some ring ->
  freeSpace (cmdQueueHead g) (cmdQueueTail g)
    < align256 (u64 (sizeof_GspQueueElement + size)) ->
  enqueueCommand msg size g
  = Some (false, set_trace (trace g ++ [EvLog LogQueueFull]) g).
Proof.
  intros Hq Hfull. unfold enqueueCommand, bind, gets. rewrite Hq.
  destruct (Z.ltb_spec (freeSpace (cmdQueueHead g) (cmdQueueTail g))
              (align256 (u64 (sizeof_GspQueueElement + size)))); [|lia].
  reflexivity.
Qed.

Lemma enqueueCommand_ok (g : Gsp W) msg size ring :
  cmdQueue g = Some ring ->
  align256 (u64 (sizeof_GspQueueElement + size))
    <= freeSpace (cmdQueueHead g) (cmdQueueTail g) ->
  enqueueCommand msg size g = Some (true, enqueued g msg size).
Proof.
  intros Hq Hfree. unfold enqueueCommand, bind, gets. rewrite Hq.
  destruct (Z.ltb_spec (freeSpace (cmdQueueHead g) (cmdQueueTail g))
              (align256 (u64 (sizeof_GspQueueElement + size)))); [lia|].
  unfold enqueued, ring_bytes, modify, ring_update, writeReg, modify, ret.
  cbn. rewrite Hq. cbn. reflexivity.
Qed.

(** C4: with local head and tail in [0, QUEUE_SIZE), the free space
    [enqueueCommand] computes is QUEUE_SIZE - ((tail - head) mod QUEUE_SIZE).
    When it is smaller than the element size (16-byte header plus payload,
    rounded up to 256), [enqueueCommand] returns [false] and leaves the
    driver as it was but for the log line; otherwise it returns [true] with
    the local tail advanced by the aligned size modulo QUEUE_SIZE and the
    head untouched. *)
Theorem enqueueCommand_free_space_and_tail (g : Gsp W) (msg : Ptr) (size : Z)
    (ring : list Z) :
  0 < QUEUE_SIZE < 4294967296 ->
  cmdQueue g = Some ring ->
  0 <= cmdQueueHead g < QUEUE_SIZE ->
  0 <= cmdQueueTail g < QUEUE_SIZE ->
  0 <= size -> sizeof_GspQueueElement + size + 255 < 2 ^ 64 ->
  let head := cmdQueueHead g in
  let tail := cmdQueueTail g in
  let aligned := 256 * ((16 + size + 255) / 256) in
  freeSpace head tail = QUEUE_SIZE - (tail - head) mod QUEUE_SIZE
  /\ (freeSpace head tail < aligned ->
      enqueueCommand msg size g
      = Some (false, set_trace (trace g ++ [EvLog LogQueueFull]) g))
  /\ (aligned <= freeSpace head tail ->
      exists g', enqueueCommand msg size g = Some (true, g')
                 /\ cmdQueueTail g' = (tail + aligned) mod QUEUE_SIZE
                 /\ cmdQueueHead g' = head).
Proof.
  intros HQ Hq Hh Ht Hs Hs' head tail aligned.
  assert (Ha : align256 (u64 (sizeof_GspQueueElement + size)) = aligned).
  { unfold sizeof_GspQueueElement in *.
    rewrite u64_small by (change 18446744073709551616 with (2 ^ 64); lia).
    rewrite align256_spec by lia. reflexivity. }
  split; [by apply freeSpace_spec|]. split.
  - intros Hfull. eapply enqueueCommand_full; [done|]. by rewrite Ha.
  - intros Hfree. exists (enqueued g msg size).
    split; [eapply enqueueCommand_ok; [done|by rewrite Ha]|].
    split; [|reflexivity].
    unfold enqueued. cbn. rewrite Ha. apply u32_small.
    pose proof (Z.mod_pos_bound (tail + aligned) QUEUE_SIZE). lia.
Qed.

(** C5: on bytes, [calcChecksum] is the bit-serial CRC-32 [crc32_ref]
    (reflected polynomial 0xEDB88320, initial value 0xFFFFFFFF, final
    complement), with the standard check value 0xCBF43926 for the ASCII
    digits 1 to 9; and a successful [enqueueCommand] leaves, in the ring, the
    payload behind the 16-byte header and in the header's checkSum field the
    CRC-32 of those payload bytes alone. *)
Theorem calcChecksum_crc32_over_payload :
  (forall bytes, Forall is_byte bytes -> calcChecksum bytes = crc32_ref bytes)
  /\ calcChecksum crc_check_input = 0xCBF43926
  /\ (forall (g : Gsp W) (msg : Ptr) (size : Z) (ring : list Z),
        cmdQueue g = Some ring ->
        0 <= size -> sizeof_GspQueueElement + size + 255 < 2 ^ 64 ->
        0 <= cmdQueueTail g ->
        cmdQueueTail g + sizeof_GspQueueElement + size
          <= Z.of_nat (length ring) ->
        Forall is_byte (mem_load (mem g) msg size) ->
        align256 (u64 (sizeof_GspQueueElement + size))
          <= freeSpace (cmdQueueHead g) (cmdQueueTail g) ->
        exists g' ring',
          enqueueCommand msg size g = Some (true, g')
          /\ cmdQueue g' = Some ring'
          /\ rdbytes ring' (cmdQueueTail g + sizeof_GspQueueElement) size
             = mem_load (mem g) msg size
          /\ rd32 ring' (cmdQueueTail g + elem_checkSum)
             = crc32_ref (mem_load (mem g) msg size)).
Proof.
  split; [apply calcChecksum_ref|]. split; [by vm_compute|].
  intros g msg size ring Hq Hs Hs' Ht Hfit Hb Hfree.
  eexists. eexists. split; [by eapply enqueueCommand_ok|].
  unfold enqueued. cbn [cmdQueue]. split; [reflexivity|].
  unfold ring_bytes. rewrite Hq. cbn [default].
  unfold sizeof_GspQueueElement, elem_checkSum, elem_data, elem_seqNum,
    elem_elemCount, elem_reserved in *.
  set (tail := cmdQueueTail g) in *.
  set (payload := mem_load (mem g) msg size) in *.
  assert (Hlen : Z.of_nat (length payload) = size).
  { unfold payload, mem_load. rewrite length_rdbytes. lia. }
  match goal with |- context [wrbytes ?r _ _] => set (r3 := r) end.
  assert (Hr3 : length r3 = length ring) by (unfold r3; by rewrite !length_wr32).
  assert (Hdata : rdbytes (wrbytes r3 (tail + 16) payload) (tail + 16) size
                  = payload).
  { pose proof (rdbytes_wrbytes r3 (tail + 16) payload) as Hd.
    rewrite Hlen in Hd. apply Hd; [lia|rewrite Hr3; lia|done]. }
  rewrite Hdata. split.
  - transitivity (rdbytes (wrbytes r3 (tail + 16) payload) (tail + 16) size);
      [|exact Hdata].
    apply rdbytes_ext. intros k Hk. apply rd8_wr32_other; lia.
  - rewrite rd32_wr32_same; [|lia|rewrite length_wrbytes, Hr3; lia].
    rewrite u32_small by apply calcChecksum_range.
    by apply calcChecksum_ref.
Qed.

End DriverFacts.

Lemma wr8_nil off v : wr8 [] off v = [].
Proof. reflexivity. Qed.
Lemma wr32_nil off v : wr32 [] off v = [].
Proof. reflexivity. Qed.
Lemma wrbytes_nil src : forall off, wrbytes [] off src = [].
Proof. induction src; intros; simpl; [done|]. rewrite wr8_nil. auto. Qed.

Lemma block_of_update m p q f :
  f [] = [] ->
  block_of (mem_update m p f) q
  = if decide (p_blk p = p_blk q) then f (block_of m q) else block_of m q.
Proof.
  intros Hf. unfold block_of, mem_update. cbn.
  destruct (decide (p_blk p = p_blk q)) as [->|Hne].
  - rewrite lookup_alter_eq. destruct (blocks m !! p_blk q); simpl; auto.
  - rewrite lookup_alter_ne by done. done.
Qed.

Lemma block_of_store32 m p q off v :
  block_of (mem_store32 m p off v) q
  = if decide (p_blk p = p_blk q) then wr32 (block_of m q) (p_off p + off) v
    else block_of m q.
Proof. apply (block_of_update m p q (fun b => wr32 b (p_off p + off) v)). reflexivity. Qed.

Lemma block_of_store m p q off src :
  block_of (mem_store m p off src) q
  = if decide (p_blk p = p_blk q) then wrbytes (block_of m q) (p_off p + off) src
    else block_of m q.
Proof. apply (block_of_update m p q (fun b => wrbytes b (p_off p + off) src)). apply wrbytes_nil. Qed.

Section RpcFacts.
Context {W : Type} `{!Host W} `{!Regs} `{!Layout}.

Lemma enqueueCommand_result msg size (g : Gsp W) :
  exists g', enqueueCommand msg size g = Some (enqueueSucceeds g size, g')
             /\ mem g' = mem g
             /\ exists evs, trace g' = trace g ++ evs /\ Forall not_rm_status evs.
Proof.
  unfold enqueueSucceeds. destruct (cmdQueue g) as [ring|] eqn:Hq.
  - destruct (Z.leb_spec (align256 (u64 (sizeof_GspQueueElement + size)))
                (freeSpace (cmdQueueHead g) (cmdQueueTail g))).
    + eexists. split; [by eapply enqueueCommand_ok|]. split; [reflexivity|].
      eexists. split; [reflexivity|]. repeat constructor. intros st; discriminate.
    + eexists. split; [by eapply enqueueCommand_full|]. split; [reflexivity|].
      eexists. split; [reflexivity|]. repeat constructor. intros st; discriminate.
  - exists g. split.
    + unfold enqueueCommand, bind, gets. rewrite Hq. reflexivity.
    + split; [done|]. exists []. rewrite app_nil_r. split; [done|constructor].
Qed.

Lemma sendRpc_result function params paramsSize (g : Gsp W) :
  exists g', sendRpc function params paramsSize g
             = Some (sendRpcSucceeds g (heap_left (mem g)) function paramsSize, g')
             /\ frame g g'.
Proof.
  unfold sendRpc, sendRpcSucceeds, bind, gets.
  destruct (gspReady g) eqn:Hr; cbn [negb andb orb].
  2: destruct (Z.eqb_spec function NV_VGPU_MSG_FUNCTION_GSP_SET_SYSTEM_INFO); cbn [negb andb orb].
  3:{ exists g. split; [reflexivity|]. split; auto.
      exists []. rewrite app_nil_r. split; [done|constructor]. }
  all: unfold IOMalloc, mem_malloc.
  all: set (msgSize := u64 (sizeof_NvRpcMessageHeader + paramsSize)).
  all: destruct (Z.ltb_spec (heap_left (mem g)) msgSize) as [Hh|Hh];
    [ replace (msgSize <=? heap_left (mem g)) with false by (symmetry; apply Z.leb_gt; lia);
      cbn; exists (set_mem (mem g) g); split; [reflexivity|];
      split; cbn; auto; exists []; rewrite app_nil_r; split; [done|constructor]
    | replace (msgSize <=? heap_left (mem g)) with true by (symmetry; apply Z.leb_le; lia) ].
  all: cbn [mem_new fst snd andb].
  all: unfold store32, modify, memcpy, ret, IOFree.
  all: destruct params as [src|]; [destruct (0 <? paramsSize)|].
  all: cbn -[enqueueCommand mem_store32 mem_store mem_free mem_load].
  all: match goal with
       | |- context [enqueueCommand ?m ?s ?gg] =>
           destruct (enqueueCommand_result m s gg) as (g2 & E & Hm & evs & Ht & Hev);
           rewrite E
       end.
  all: eexists; split;
    [ unfold enqueueSucceeds; cbn -[mem_store32 mem_store mem_free mem_load];
      rewrite ?Hr, ?orb_true_r; reflexivity |].
  all: split; cbn -[mem_store32 mem_store mem_load]; rewrite ?Hm;
    cbn -[mem_load];
    [ intros b Hb; rewrite lookup_delete_ne by lia;
      rewrite !lookup_alter_ne by lia; rewrite lookup_insert_ne by lia; done
    | lia | lia
    | exists evs; split; [exact Ht|exact Hev] ].
Qed.

Lemma sendRpcSucceeds_ext (g g1 : Gsp W) heap function size :
  gspReady g1 = gspReady g -> cmdQueue g1 = cmdQueue g ->
  cmdQueueHead g1 = cmdQueueHead g -> cmdQueueTail g1 = cmdQueueTail g ->
  sendRpcSucceeds g1 heap function size = sendRpcSucceeds g heap function size.
Proof.
  intros E1 E2 E3 E4. unfold sendRpcSucceeds, enqueueSucceeds.
  by rewrite E1, E2, E3, E4.
Qed.

Lemma status_survives (b : list Z) (extra : list Z -> list Z) off src :
  20 <= Z.of_nat (length b) -> 20 <= off ->
  (forall c k, 0 <= k < 20 -> rd8 (extra c) k = rd8 c k) ->
  rd32 (wrbytes (extra (wr32 b 16 0)) off src) 16 = 0.
Proof.
  intros Hl Ho He. unfold rd32.
  rewrite !rd8_wrbytes_other by lia. rewrite !He by lia.
  change (rd32 (wr32 b 16 0) 16 = 0). rewrite rd32_wr32_same by lia. done.
Qed.

Lemma length_fresh_bytes m n : length (fresh_bytes m n) = Z.to_nat n.
Proof. unfold fresh_bytes. by rewrite length_map, length_seq. Qed.

Lemma run_bind {A B} (c : Drv W A) (k : A -> Drv W B) g a g1 :
  c g = Some (a, g1) -> bind c k g = k a g1.
Proof. intros E. unfold bind. by rewrite E. Qed.

(** From the call of [sendRpc] to the end of [rmAlloc] and [rmControl]. *)
Lemma rm_tail (function size statusOff : Z) (buffer stackBuf : Ptr)
    (allocated : bool) (g1 : Gsp W) :
  rd32 (block_of (mem g1) buffer) (p_off buffer + statusOff) = 0 ->
  (p_blk buffer < next_blk (mem g1))%nat ->
  exists g' evs,
    (let* result := sendRpc function (Some buffer) size in
     let* status := load32 buffer statusOff in
     let* result :=
       if result && negb (status =? 0)
       then IOLog (LogRmStatus status) ;;; ret false
       else ret result in
     (if allocated then IOFree buffer size else ret tt) ;;;
     leave stackBuf ;;;
     ret result)%gsp g1
    = Some (sendRpcSucceeds g1 (heap_left (mem g1)) function size, g')
    /\ trace g' = trace g1 ++ evs /\ Forall not_rm_status evs.
Proof.
  intros Hst Hblk.
  destruct (sendRpc_result function (Some buffer) size g1)
    as (g2 & E & [Hb Hn Hl (evs & Ht & Hev)]).
  erewrite run_bind by exact E.
  erewrite run_bind by reflexivity.
  assert (Hz : mem_load32 (mem g2) buffer statusOff = 0).
  { unfold mem_load32, block_of. rewrite Hb by done. exact Hst. }
  rewrite Hz. change (0 =? 0) with true. rewrite andb_false_r.
  erewrite run_bind by reflexivity.
  destruct allocated.
  - erewrite run_bind by reflexivity. erewrite run_bind by reflexivity.
    eexists. exists evs. split; [reflexivity|]. cbn. auto.
  - erewrite run_bind by reflexivity. erewrite run_bind by reflexivity.
    eexists. exists evs. split; [reflexivity|]. cbn. auto.
Qed.

Lemma IOMalloc_fail (g : Gsp W) n :
  heap_left (mem g) < n -> IOMalloc n g = Some (None, set_mem (mem g) g).
Proof.
  intros Hn. unfold IOMalloc, mem_malloc.
  destruct (Z.ltb_spec (heap_left (mem g)) n); [done|lia].
Qed.

Lemma IOMalloc_ok (g : Gsp W) n :
  n <= heap_left (mem g) ->
  IOMalloc n g
  = Some (Some {| p_blk := next_blk (mem g); p_off := 0 |},
          set_mem (snd (mem_new (mem g) n (heap_left (mem g) - n))) g).
Proof.
  intros Hn. unfold IOMalloc, mem_malloc.
  destruct (Z.ltb_spec (heap_left (mem g)) n); [lia|done].
Qed.

Lemma mem_set_mem (m : Mem) (g : Gsp W) : mem (set_mem m g) = m.
Proof. reflexivity. Qed.

Lemma set_mem_set_mem (m m' : Mem) (g : Gsp W) :
  set_mem m (set_mem m' g) = set_mem m g.
Proof. reflexivity. Qed.

Ltac step :=
  cbv beta iota; erewrite run_bind by reflexivity;
  rewrite ?mem_set_mem, ?set_mem_set_mem.

Lemma length_block_store32 m p q off v :
  length (block_of (mem_store32 m p off v) q) = length (block_of m q).
Proof.
  rewrite block_of_store32. destruct (decide _); [|done]. apply length_wr32.
Qed.

Lemma block_of_new m n left :
  block_of (mem_new m n left).2 {| p_blk := next_blk m; p_off := 0 |}
  = fresh_bytes m n.
Proof. unfold block_of, mem_new. cbn. by rewrite lookup_insert_eq. Qed.

Lemma block_of_inserted (bl : gmap nat (list Z)) n b nx hl jk o :
  block_of {| blocks := <[n := b]> bl; next_blk := nx; heap_left := hl;
              junk := jk |} {| p_blk := n; p_off := o |} = b.
Proof. unfold block_of. cbn. by rewrite lookup_insert_eq. Qed.

Lemma block_of_new_other m n left q :
  p_blk q <> next_blk m ->
  block_of (mem_new m n left).2 q = block_of m q.
Proof. intros Hne. unfold block_of, mem_new. cbn. by rewrite lookup_insert_ne. Qed.

Lemma status_written m buffer :
  p_off buffer = 0 -> 20 <= Z.of_nat (length (block_of m buffer)) ->
  rd32 (block_of (mem_store32 m buffer 16 0) buffer) 16 = 0.
Proof.
  intros Ho Hl. rewrite block_of_store32, decide_True by done. rewrite Ho.
  apply rd32_wr32_same; lia.
Qed.

Lemma status_kept_store32 m buffer off v :
  p_off buffer = 0 -> 20 <= off ->
  rd32 (block_of (mem_store32 m buffer off v) buffer) 16
  = rd32 (block_of m buffer) 16.
Proof.
  intros Ho Hoff. rewrite block_of_store32, decide_True by done. rewrite Ho.
  apply rd32_wr32_other; lia.
Qed.

Lemma status_kept_store m buffer off src :
  p_off buffer = 0 -> 20 <= off ->
  rd32 (block_of (mem_store m buffer off src) buffer) 16
  = rd32 (block_of m buffer) 16.
Proof.
  intros Ho Hoff. rewrite block_of_store, decide_True by done. rewrite Ho.
  unfold rd32. by rewrite !rd8_wrbytes_other by lia.
Qed.

(** C9: [rmAlloc] and [rmControl] always return, their result is the one
    of [sendRpc] ([rmSucceeds]: the buffer and the message could be
    allocated, the GSP is ready and the queue has room), and the line of
    the non-zero-status branch is never logged: the status word written as 0
    in the caller's buffer is still 0 when it is inspected, since [sendRpc]
    only copies from that buffer. *)
Theorem rm_status_branch_unreachable (g : Gsp W)
    (hClient hParent hObject hClass cmd : Z) (params : option Ptr)
    (paramsSize : Z) :
  (exists g' evs,
     rmAlloc hClient hParent hObject hClass params paramsSize g
     = Some (rmSucceeds g NV_VGPU_MSG_FUNCTION_GSP_RM_ALLOC
               sizeof_NvGspAllocParams paramsSize, g')
     /\ trace g' = trace g ++ evs /\ Forall not_rm_status evs)
  /\ (exists g' evs,
     rmControl hClient hObject cmd params paramsSize g
     = Some (rmSucceeds g NV_VGPU_MSG_FUNCTION_GSP_RM_CONTROL
               sizeof_NvGspControlParams paramsSize, g')
     /\ trace g' = trace g ++ evs /\ Forall not_rm_status evs).
Proof.
  split.
  - unfold rmAlloc, rmSucceeds.
    set (allocSize := u64 (sizeof_NvGspAllocParams + paramsSize)).
    step.
    match goal with |- context [bind _ _ ?gg] => set (g0 := gg) end.
    destruct (Z.ltb_spec 256 allocSize) as [Hbig|Hsmall].
    + destruct (Z.ltb_spec (heap_left (mem g)) allocSize) as [Hh|Hh].
      * replace (allocSize <=? heap_left (mem g)) with false
          by (symmetry; apply Z.leb_gt; lia).
        erewrite run_bind by (apply IOMalloc_fail; exact Hh).
        step. eexists. exists []. split; [reflexivity|].
        cbn. rewrite app_nil_r. split; [done|constructor].
      * replace (allocSize <=? heap_left (mem g)) with true
          by (symmetry; apply Z.leb_le; lia).
        erewrite run_bind by (apply IOMalloc_ok; exact Hh).
        rewrite ?mem_set_mem, ?set_mem_set_mem.
        do 5 step.
        destruct params as [src|]; [destruct (0 <? paramsSize)|]; step.
        all: match goal with |- context [bind _ _ ?gg] => set (g1 := gg) end.
        all: edestruct (rm_tail NV_VGPU_MSG_FUNCTION_GSP_RM_ALLOC allocSize
                          alloc_status {| p_blk := next_blk (mem g0); p_off := 0 |}
                          {| p_blk := next_blk (mem g); p_off := 0 |} true g1)
               as (g' & evs & E & Ht & Hev);
          [ subst g1; rewrite mem_set_mem; cbn [p_off Z.add];
            rewrite ?status_kept_store by (done || (unfold sizeof_NvGspAllocParams; lia));
            apply status_written; [done|];
            rewrite !length_block_store32, block_of_new, length_fresh_bytes; lia
          | subst g1; cbn; lia
          | exists g', evs; split; [|split; [exact Ht|exact Hev]];
            etransitivity; [exact E|]; f_equal; f_equal;
            subst g1; cbn [andb]; rewrite mem_set_mem;
            apply sendRpcSucceeds_ext; reflexivity ].
    + step.
      do 5 step.
      destruct params as [src|]; [destruct (0 <? paramsSize)|]; step.
      all: match goal with |- context [bind _ _ ?gg] => set (g1 := gg) end.
      all: edestruct (rm_tail NV_VGPU_MSG_FUNCTION_GSP_RM_ALLOC allocSize
                        alloc_status {| p_blk := next_blk (mem g); p_off := 0 |}
                        {| p_blk := next_blk (mem g); p_off := 0 |} false g1)
             as (g' & evs & E & Ht & Hev);
        [ subst g1; rewrite mem_set_mem; cbn [p_off Z.add];
          rewrite ?status_kept_store by (done || (unfold sizeof_NvGspAllocParams; lia));
          apply status_written; [done|];
          rewrite !length_block_store32; subst g0; rewrite mem_set_mem;
          rewrite block_of_inserted, length_fresh_bytes; lia
        | subst g1; cbn; lia
        | exists g', evs; split; [|split; [exact Ht|exact Hev]];
          etransitivity; [exact E|]; f_equal; f_equal;
          subst g1; rewrite mem_set_mem;
          apply sendRpcSucceeds_ext; reflexivity ].
  - unfold rmControl, rmSucceeds.
    set (ctrlSize := u64 (sizeof_NvGspControlParams + paramsSize)).
    step.
    match goal with |- context [bind _ _ ?gg] => set (g0 := gg) end.
    destruct (Z.ltb_spec 256 ctrlSize) as [Hbig|Hsmall].
    + destruct (Z.ltb_spec (heap_left (mem g)) ctrlSize) as [Hh|Hh].
      * replace (ctrlSize <=? heap_left (mem g)) with false
          by (symmetry; apply Z.leb_gt; lia).
        erewrite run_bind by (apply IOMalloc_fail; exact Hh).
        step. eexists. exists []. split; [reflexivity|].
        cbn. rewrite app_nil_r. split; [done|constructor].
      * replace (ctrlSize <=? heap_left (mem g)) with true
          by (symmetry; apply Z.leb_le; lia).
        erewrite run_bind by (apply IOMalloc_ok; exact Hh).
        rewrite ?mem_set_mem, ?set_mem_set_mem.
        do 6 step.
        destruct params as [src|]; [destruct (0 <? paramsSize)|]; step.
        all: match goal with |- context [bind _ _ ?gg] => set (g1 := gg) end.
        all: edestruct (rm_tail NV_VGPU_MSG_FUNCTION_GSP_RM_CONTROL ctrlSize
                          control_status {| p_blk := next_blk (mem g0); p_off := 0 |}
                          {| p_blk := next_blk (mem g); p_off := 0 |} true g1)
               as (g' & evs & E & Ht & Hev);
          [ subst g1; rewrite mem_set_mem; cbn [p_off Z.add];
            rewrite ?status_kept_store by (done || (unfold sizeof_NvGspControlParams; lia));
            rewrite status_kept_store32 by (done || lia);
            apply status_written; [done|];
            rewrite !length_block_store32, block_of_new, length_fresh_bytes; lia
          | subst g1; cbn; lia
          | exists g', evs; split; [|split; [exact Ht|exact Hev]];
            etransitivity; [exact E|]; f_equal; f_equal;
            subst g1; cbn [andb]; rewrite mem_set_mem;
            apply sendRpcSucceeds_ext; reflexivity ].
    + step.
      do 6 step.
      destruct params as [src|]; [destruct (0 <? paramsSize)|]; step.
      all: match goal with |- context [bind _ _ ?gg] => set (g1 := gg) end.
      all: edestruct (rm_tail NV_VGPU_MSG_FUNCTION_GSP_RM_CONTROL ctrlSize
                        control_status {| p_blk := next_blk (mem g); p_off := 0 |}
                        {| p_blk := next_blk (mem g); p_off := 0 |} false g1)
             as (g' & evs & E & Ht & Hev);
        [ subst g1; rewrite mem_set_mem; cbn [p_off Z.add];
          rewrite ?status_kept_store by (done || (unfold sizeof_NvGspControlParams; lia));
          rewrite status_kept_store32 by (done || lia);
          apply status_written; [done|];
          rewrite !length_block_store32; subst g0; rewrite mem_set_mem;
          rewrite block_of_inserted, length_fresh_bytes; lia
        | subst g1; cbn; lia
        | exists g', evs; split; [|split; [exact Ht|exact Hev]];
          etransitivity; [exact E|]; f_equal; f_equal;
          subst g1; rewrite mem_set_mem;
          apply sendRpcSucceeds_ext; reflexivity ].
Qed.
End RpcFacts.

Section FwsecFacts.
Context {W : Type} `{!Host W} `{!Regs} `{!Layout}.

Lemma trace_set_trace (t : list Event) (g : Gsp W) : trace (set_trace t g) = t.
Proof. reflexivity. Qed.
Lemma set_trace_set_trace (t t' : list Event) (g : Gsp W) :
  set_trace t (set_trace t' g) = set_trace t g.
Proof. reflexivity. Qed.
Lemma world_set_trace (t : list Event) (g : Gsp W) : world (set_trace t g) = world g.
Proof. reflexivity. Qed.

Lemma bind_assoc {A B C} (c : Drv W A) (k1 : A -> Drv W B)
    (k2 : B -> Drv W C) (g : Gsp W) :
  bind (bind c k1) k2 g = bind c (fun a => bind (k1 a) k2) g.
Proof. unfold bind. destruct (c g) as [[a g']|]; reflexivity. Qed.

Ltac rstep :=
  cbv beta iota; erewrite run_bind by reflexivity;
  rewrite ?world_set_trace, ?trace_set_trace, ?set_trace_set_trace.

(** C1: if the enabled bit of WPR2_ADDR_HI is set when [executeFwsecFrts]
    is called, it returns [true] at once.  The driver changes only in the
    cached WPR2 bounds, and the trace grows by the register reads of
    [wpr2_reads] alone: no strategy runs (no Falcon reset, no ucode load, no
    start), and no register is written. *)
Theorem executeFwsecFrts_wpr2_already_enabled (g : Gsp W) :
  NV_PFB_WPR2_ENABLED (u32 (bar0_load (world g) NV_PFB_PRI_MMU_WPR2_ADDR_HI))
  = true ->
  exists lo hi,
    executeFwsecFrts g
    = Some (true, set_wpr2 lo hi (set_trace (trace g ++ wpr2_reads (world g)) g))
    /\ forallb is_read (wpr2_reads (world g)) = true
    /\ existsb is_write (wpr2_reads (world g)) = false.
Proof.
  intros Hen. unfold executeFwsecFrts.
  do 2 rstep. unfold checkWpr2Setup. rewrite bind_assoc. rstep.
  rewrite bind_assoc. rstep. rewrite Hen.
  rewrite bind_assoc. rstep. rewrite bind_assoc. rstep. rstep.
  cbv beta iota. unfold ret.
  eexists. eexists. split; [|split; reflexivity].
  f_equal. f_equal. unfold set_wpr2, set_trace, wpr2_reads. cbn.
  rewrite <- !app_assoc. reflexivity.
Qed.

End FwsecFacts.

Section BootFacts.
Context {W : Type} `{!Host W} `{!Regs} `{!Layout}.

Lemma world_set_world (w : W) (g : Gsp W) : world (set_world w g) = w.
Proof. reflexivity. Qed.
Lemma trace_set_world (w : W) (g : Gsp W) : trace (set_world w g) = trace g.
Proof. reflexivity. Qed.

Ltac rstep :=
  cbv beta iota; erewrite run_bind by reflexivity;
  rewrite ?world_set_trace, ?trace_set_trace, ?set_trace_set_trace,
    ?world_set_world, ?trace_set_world.

Lemma pollWorld_S w k : pollWorld (io_delay w 1000) k = pollWorld w (S k).
Proof. unfold pollWorld. by rewrite Nat.iter_succ_r. Qed.

Lemma activeWait_spec n : forall i (g : Gsp W),
  exists r g' evs,
    activeWait n i g = Some (r, g')
    /\ trace g' = trace g ++ evs
    /\ (r = true <-> exists k, (k < n)%nat /\ activeAt (pollWorld (world g) k) = true)
    /\ (forall rc j,
          In (EvLog (LogBootError rc j)) evs <->
          exists k, (k < n)%nat /\ j = i + Z.of_nat k
                    /\ (forall k', (k' <= k)%nat ->
                                   activeAt (pollWorld (world g) k') = false)
                    /\ rc = retcodeAt (pollWorld (world g) k)
                    /\ isBootError rc = true).
Proof.
  induction n as [|n IH]; intros i g.
  - exists false, g, []. split; [reflexivity|]. split; [by rewrite app_nil_r|].
    split.
    + split; [discriminate|]. intros (k & Hk & _). lia.
    + intros rc j. split; [intros []|]. intros (k & Hk & _). lia.
  - cbn [activeWait]. do 2 rstep.
    fold (activeAt (world g)). fold (retcodeAt (world g)).
    destruct (activeAt (world g)) eqn:Hact.
    + eexists true, _, _. split; [reflexivity|]. rewrite trace_set_trace.
      split; [by rewrite <- app_assoc|]. split.
      * split; [|done]. intros _. exists 0%nat. split; [lia|exact Hact].
      * intros rc j. split.
        -- intros [Hin|[Hin|[]]]; discriminate.
        -- intros (k & _ & _ & Hno & _). specialize (Hno 0%nat ltac:(lia)).
           cbn in Hno. congruence.
    + fold (isBootError (retcodeAt (world g))).
      destruct (isBootError (retcodeAt (world g))) eqn:Herr.
      * do 2 rstep.
        match goal with |- context [activeWait n ?i' ?gg] =>
          destruct (IH i' gg) as (r & g' & evs & E & Ht & Hr & Hlog) end.
        rewrite E. exists r, g'. eexists. split; [reflexivity|].
        rewrite Ht. cbn [trace set_trace set_world world] in *.
        split; [rewrite <- !app_assoc; reflexivity|]. split.
        -- rewrite Hr. split.
           ++ intros (k & Hk & Ha). exists (S k). split; [lia|].
              by rewrite <- pollWorld_S.
           ++ intros (k & Hk & Ha). destruct k as [|k].
              ** cbn in Ha. congruence.
              ** exists k. split; [lia|]. by rewrite pollWorld_S.
        -- intros rc j. cbn [app]. cbn [In]. rewrite Hlog. split.
           ++ intros [Hin|[Hin|[Hin|[Hin|Hin]]]]; try discriminate.
              ** inversion Hin; subst rc j. exists 0%nat.
                 split; [lia|]. split; [lia|]. split.
                 --- intros k' Hk'. replace k' with 0%nat by lia. exact Hact.
                 --- split; [reflexivity|exact Herr].
              ** destruct Hin as (k & Hk & Hj & Hno & Hrc & He).
                 exists (S k). split; [lia|]. split; [lia|]. split.
                 --- intros k' Hk'. destruct k' as [|k']; [exact Hact|].
                     rewrite <- pollWorld_S. apply Hno. lia.
                 --- rewrite <- pollWorld_S. split; [exact Hrc|exact He].
           ++ intros (k & Hk & Hj & Hno & Hrc & He). destruct k as [|k].
              ** right. right. left. subst. cbn. f_equal. f_equal. lia.
              ** do 4 right. exists k. split; [lia|]. split; [lia|]. split.
                 --- intros k' Hk'. rewrite pollWorld_S. apply Hno. lia.
                 --- rewrite pollWorld_S. split; [exact Hrc|exact He].
      * do 2 rstep.
        match goal with |- context [activeWait n ?i' ?gg] =>
          destruct (IH i' gg) as (r & g' & evs & E & Ht & Hr & Hlog) end.
        rewrite E. exists r, g'. eexists. split; [reflexivity|].
        rewrite Ht. cbn [trace set_trace set_world world] in *.
        split; [rewrite <- !app_assoc; reflexivity|]. split.
        -- rewrite Hr. split.
           ++ intros (k & Hk & Ha). exists (S k). split; [lia|].
              by rewrite <- pollWorld_S.
           ++ intros (k & Hk & Ha). destruct k as [|k].
              ** cbn in Ha. congruence.
              ** exists k. split; [lia|]. by rewrite pollWorld_S.
        -- intros rc j. cbn [app]. cbn [In]. rewrite Hlog. split.
           ++ intros [Hin|[Hin|[Hin|Hin]]]; try discriminate.
              destruct Hin as (k & Hk & Hj & Hno & Hrc & He).
              exists (S k). split; [lia|]. split; [lia|]. split.
              ** intros k' Hk'. destruct k' as [|k']; [exact Hact|].
                 rewrite <- pollWorld_S. apply Hno. lia.
              ** rewrite <- pollWorld_S. split; [exact Hrc|exact He].
           ++ intros (k & Hk & Hj & Hno & Hrc & He). destruct k as [|k].
              ** subst rc. cbn in He. congruence.
              ** do 3 right. exists k. split; [lia|]. split; [lia|]. split.
                 --- intros k' Hk'. rewrite pollWorld_S. apply Hno. lia.
                 --- rewrite pollWorld_S. split; [exact Hrc|exact He].
Qed.

Lemma in_log_app (l1 l2 : list Event) line :
  In (EvLog line) (l1 ++ l2) <-> In (EvLog line) l1 \/ In (EvLog line) l2.
Proof. apply in_app_iff. Qed.

Lemma probeBases_run bases : forall (g : Gsp W),
  exists evs, probeBases bases g = Some (tt, set_trace (trace g ++ evs) g)
              /\ no_log evs.
Proof.
  induction bases as [|b bases IH]; intros g.
  - exists []. split; [cbn; unfold ret; rewrite app_nil_r; by destruct g|].
    intros line [].
  - cbn [probeBases]. do 2 rstep.
    match goal with |- context [probeBases bases ?gg] =>
      destruct (IH gg) as (evs & E & Hno) end.
    eexists. rewrite E. rewrite trace_set_trace, set_trace_set_trace.
    rewrite <- !app_assoc. split; [reflexivity|].
    intros line Hin. cbn in Hin. destruct Hin as [Hin|[Hin|Hin]]; try discriminate.
    by apply (Hno line).
Qed.

(** C2, as the code has it: [startRiscv] always returns, and returns [true]
    exactly when one of the 100 polls sees CPUCTL.ACTIVE, whatever
    BR_RETCODE holds.  A BR_RETCODE other than 0 and 0xbadf5040 is logged as
    a boot error at every poll that comes before ACTIVE is seen, and is
    logged only: the polling goes on, and the result is not changed by
    it. *)
Theorem startRiscv_retcode_only_logged (g : Gsp W) :
  exists r g' evs,
    startRiscv g = Some (r, g')
    /\ trace g' = trace g ++ evs
    /\ (r = true <->
        exists k, (k < 100)%nat
                  /\ activeAt (pollWorld (startedWorld g) k) = true)
    /\ (forall rc j,
          In (EvLog (LogBootError rc j)) evs <->
          exists k, (k < 100)%nat /\ j = Z.of_nat k
                    /\ (forall k', (k' <= k)%nat ->
                          activeAt (pollWorld (startedWorld g) k') = false)
                    /\ rc = retcodeAt (pollWorld (startedWorld g) k)
                    /\ isBootError rc = true).
Proof.
  unfold startRiscv.
  destruct (probeBases_run testBases g) as (pre & Epre & Hpre).
  erewrite run_bind by exact Epre.
  do 6 rstep.
  match goal with |- context [bind (activeWait 100 0) _ ?gg] =>
    destruct (activeWait_spec 100 0 gg) as (r & g1 & evs & E & Ht & Hr & Hlog);
    assert (Hw : world gg = startedWorld g) by reflexivity
  end.
  rewrite Hw in Hr, Hlog.
  erewrite run_bind by exact E.
  cbn [trace set_trace set_world] in Ht.
  destruct r.
  - exists true, g1. eexists. split; [reflexivity|]. rewrite Ht.
    split; [rewrite <- !app_assoc; reflexivity|]. split; [exact Hr|].
    intros rc j. rewrite <- (Hlog rc j). rewrite !in_app_iff. cbn [In]. split.
    + intros Hin.
      repeat (destruct Hin as [Hin|Hin]);
        first [ discriminate Hin | exact Hin | contradiction
              | exfalso; exact (Hpre _ Hin) ].
    + intros Hin. tauto.
  - do 4 rstep. eexists false, _, _. split; [reflexivity|].
    rewrite trace_set_trace, Ht.
    split; [rewrite <- !app_assoc; reflexivity|]. split; [exact Hr|].
    intros rc j. rewrite <- (Hlog rc j). rewrite !in_app_iff. cbn [In]. split.
    + intros Hin.
      repeat (destruct Hin as [Hin|Hin]);
        first [ discriminate Hin | exact Hin | contradiction
              | exfalso; exact (Hpre _ Hin) ].
    + intros Hin. tauto.
Qed.

End BootFacts.

Lemma length_fillLevel n : forall base phys i tbl,
  length (fillLevel n base phys i tbl) = length tbl.
Proof.
  induction n as [|n IH]; intros; cbn [fillLevel]; [done|].
  by rewrite IH, length_insert.
Qed.

Lemma fillLevel_lookup_in n : forall base phys i tbl (j : Z),
  0 <= base + i ->
  i <= j < i + Z.of_nat n ->
  base + j < Z.of_nat (length tbl) ->
  fillLevel n base phys i tbl !! Z.to_nat (base + j)
  = Some (Z.lor (u64 (phys + j * GSP_PAGE_SIZE)) 1).
Proof.
  induction n as [|n IH]; intros base phys i tbl j Hb Hj Hl; [lia|].
  cbn [fillLevel].
  destruct (Z.eq_dec j i) as [->|Hne].
  - (* written now, never overwritten *)
    clear IH.
    assert (Hkeep : forall m i' t, i < i' ->
              fillLevel m base phys i' t !! Z.to_nat (base + i)
              = t !! Z.to_nat (base + i)).
    { induction m as [|m IHm]; intros i' t Hi'; cbn [fillLevel]; [done|].
      rewrite IHm by lia. apply list_lookup_insert_ne. lia. }
    rewrite Hkeep by lia. apply list_lookup_insert_eq. lia.
  - apply IH; [lia|lia|rewrite length_insert; lia].
Qed.

Lemma fillLevel_lookup_out n : forall base phys i tbl (j : nat),
  0 <= base + i ->
  (Z.of_nat j < base + i \/ base + i + Z.of_nat n <= Z.of_nat j) ->
  fillLevel n base phys i tbl !! j = tbl !! j.
Proof.
  induction n as [|n IH]; intros base phys i tbl j Hb Hj; cbn [fillLevel]; [done|].
  rewrite IH by lia. apply list_lookup_insert_ne. lia.
Qed.

Lemma length_fillLeaves n : forall fw base i tbl,
  length (fillLeaves n fw base i tbl).2 = length tbl.
Proof.
  induction n as [|n IH]; intros; cbn [fillLeaves]; [done|].
  destruct (_ =? 0); [done|]. by rewrite IH, length_insert.
Qed.

Lemma fillLeaves_ok n : forall fw base i tbl,
  (forall k, i <= k < i + Z.of_nat n ->
             getPhysicalSegment fw (k * GSP_PAGE_SIZE) <> 0) ->
  (fillLeaves n fw base i tbl).1 = true.
Proof.
  induction n as [|n IH]; intros fw base i tbl Hseg; cbn [fillLeaves]; [done|].
  destruct (Z.eqb_spec (getPhysicalSegment fw (i * GSP_PAGE_SIZE)) 0) as [E|E].
  - exfalso. apply (Hseg i); [lia|done].
  - apply IH. intros k Hk. apply Hseg. lia.
Qed.

Lemma fillLeaves_lookup_out n : forall fw base i tbl (j : nat),
  0 <= base + i ->
  (Z.of_nat j < base + i \/ base + i + Z.of_nat n <= Z.of_nat j) ->
  (fillLeaves n fw base i tbl).2 !! j = tbl !! j.
Proof.
  induction n as [|n IH]; intros fw base i tbl j Hb Hj; cbn [fillLeaves]; [done|].
  destruct (_ =? 0); [done|].
  rewrite IH by lia. apply list_lookup_insert_ne. lia.
Qed.

Lemma fillLeaves_lookup_in n : forall fw base i tbl (j : Z),
  0 <= base + i ->
  (forall k, i <= k < i + Z.of_nat n ->
             getPhysicalSegment fw (k * GSP_PAGE_SIZE) <> 0) ->
  i <= j < i + Z.of_nat n ->
  base + j < Z.of_nat (length tbl) ->
  (fillLeaves n fw base i tbl).2 !! Z.to_nat (base + j)
  = Some (Z.lor (getPhysicalSegment fw (j * GSP_PAGE_SIZE)) 1).
Proof.
  induction n as [|n IH]; intros fw base i tbl j Hb Hseg Hj Hl; [lia|].
  cbn [fillLeaves].
  destruct (Z.eqb_spec (getPhysicalSegment fw (i * GSP_PAGE_SIZE)) 0) as [E|E].
  { exfalso. apply (Hseg i); [lia|done]. }
  destruct (Z.eq_dec j i) as [->|Hne].
  - rewrite fillLeaves_lookup_out by lia. apply list_lookup_insert_eq. lia.
  - apply IH; [lia| |lia|rewrite length_insert; lia].
    intros k Hk. apply Hseg. lia.
Qed.

Section Radix3Facts.
Context {W : Type} `{!Host W} `{!Regs} `{!Layout}.

(** C3: for a firmware of [size] bytes (up to 2^39), once the DMA
    allocation of (1 + numL1 + numL2) pages succeeds at [tablePhys] and every
    firmware page has a physical address, [buildRadix3PageTable] returns
    [true] with a table of that many 512-entry pages laid out as root, L1
    pages, L2 pages, where numPages = ceil(size / 4096), numL2 =
    ceil(numPages / 512) and numL1 = ceil(numL2 / 512): root entry i < numL1
    is (l1PhysBase + i * 4096) | 1, L1 entry i < numL2 is (l2PhysBase + i *
    4096) | 1, leaf i < numPages is pagePhys(i * 4096) | 1 as the firmware
    descriptor gives it for that page, and every other entry is zero. *)
Theorem buildRadix3PageTable_layout (g : Gsp W) (size : Z) (fw : MemDesc)
    (tablePhys : Z) (w' : W) :
  let numPages := (size + 4095) / 4096 in
  let numL2 := (numPages + 511) / 512 in
  let numL1 := (numL2 + 511) / 512 in
  let l1PhysBase := tablePhys + 4096 in
  let l2PhysBase := l1PhysBase + numL1 * 4096 in
  0 <= size <= 2 ^ 39 ->
  firmwareMem g = Some fw ->
  dma_alloc (world g) ((1 + numL1 + numL2) * 4096) = (Some tablePhys, w') ->
  0 <= tablePhys < 2 ^ 48 ->
  (forall i, 0 <= i < numPages -> getPhysicalSegment fw (i * 4096) <> 0) ->
  exists tbl,
    buildRadix3PageTable size g
    = Some (true, set_radix3 (Some tbl) tablePhys (set_world w' g))
    /\ Z.of_nat (length tbl) = (1 + numL1 + numL2) * 512
    /\ (forall i, 0 <= i < numL1 ->
          tbl !! Z.to_nat i = Some (Z.lor (l1PhysBase + i * 4096) 1))
    /\ (forall i, 0 <= i < numL2 ->
          tbl !! Z.to_nat (512 + i) = Some (Z.lor (l2PhysBase + i * 4096) 1))
    /\ (forall i, 0 <= i < numPages ->
          tbl !! Z.to_nat (512 + numL1 * 512 + i)
          = Some (Z.lor (getPhysicalSegment fw (i * 4096)) 1))
    /\ (forall j, numL1 <= j < 512
                  \/ 512 + numL2 <= j < 512 + numL1 * 512
                  \/ 512 + numL1 * 512 + numPages <= j
                     < (1 + numL1 + numL2) * 512 ->
          tbl !! Z.to_nat j = Some 0).
Proof.
  intros numPages numL2 numL1 l1PhysBase l2PhysBase Hsize Hfw Halloc Hphys Hseg.
  assert (Hp : radix3_numPages size = numPages).
  { unfold radix3_numPages, GSP_PAGE_SIZE.
    rewrite u64_small by (change 18446744073709551616 with (2 ^ 64);
                          change (2^39) with 549755813888 in Hsize; lia).
    unfold numPages. f_equal. lia. }
  assert (H2 : radix3_numL2 size = numL2) by (unfold radix3_numL2; by rewrite Hp).
  assert (H1 : radix3_numL1 size = numL1) by (unfold radix3_numL1; by rewrite H2).
  change (2 ^ 39) with 549755813888 in Hsize.
  change (2 ^ 48) with 281474976710656 in Hphys.
  assert (Bp : 0 <= numPages <= 134217728)
    by (unfold numPages; Z.div_mod_to_equations; lia).
  assert (B2 : 0 <= numL2 <= 262144 /\ numPages <= numL2 * 512)
    by (unfold numL2; Z.div_mod_to_equations; lia).
  assert (B1 : 0 <= numL1 <= 512 /\ numL2 <= numL1 * 512)
    by (unfold numL1; Z.div_mod_to_equations; lia).
  assert (Hts : radix3_tableSize size = (1 + numL1 + numL2) * 4096).
  { unfold radix3_tableSize, GSP_PAGE_SIZE. rewrite H1, H2. apply u64_small. lia. }
  unfold buildRadix3PageTable. rewrite Hts, Hp, H1, H2.
  unfold allocDmaBuffer at 1.
  erewrite run_bind by (rewrite Halloc; reflexivity).
  cbv beta iota.
  erewrite run_bind by (unfold gets; cbn [firmwareMem set_world]; rewrite Hfw; reflexivity).
  cbv beta iota.
  set (zeroed := replicate _ 0).
  set (l1Phys := u64 (tablePhys + GSP_PAGE_SIZE)).
  set (l2Phys := u64 (l1Phys + numL1 * GSP_PAGE_SIZE)).
  set (root := fillLevel (Z.to_nat numL1) 0 l1Phys 0 zeroed).
  set (l1 := fillLevel (Z.to_nat numL2) 512 l2Phys 0 root).
  set (l2Table := 512 + numL1 * 512).
  assert (Hl1Phys : l1Phys = l1PhysBase)
    by (unfold l1Phys, GSP_PAGE_SIZE; apply u64_small; lia).
  assert (Hl2Phys : l2Phys = l2PhysBase)
    by (unfold l2Phys, GSP_PAGE_SIZE; rewrite Hl1Phys; apply u64_small;
        unfold l1PhysBase; lia).
  assert (Hz : Z.of_nat (length zeroed) = (1 + numL1 + numL2) * 512).
  { unfold zeroed. rewrite length_replicate.
    replace ((1 + numL1 + numL2) * 4096 / 8) with ((1 + numL1 + numL2) * 512)
      by (Z.div_mod_to_equations; lia). lia. }
  assert (Hroot : length root = length zeroed) by apply length_fillLevel.
  assert (Hl1 : length l1 = length zeroed)
    by (unfold l1; by rewrite length_fillLevel).
  destruct (fillLeaves (Z.to_nat numPages) fw l2Table 0 l1) as [ok tbl] eqn:Efill.
  assert (Hok : ok = true).
  { change ok with (ok, tbl).1. rewrite <- Efill. apply fillLeaves_ok.
    intros k Hk. apply Hseg. lia. }
  assert (Htbl : tbl = (fillLeaves (Z.to_nat numPages) fw l2Table 0 l1).2)
    by (by rewrite Efill).
  subst ok. exists tbl. split; [reflexivity|].
  split; [rewrite Htbl, length_fillLeaves, Hl1; exact Hz|].
  split; [|split; [|split]].
  - intros i Hi. rewrite Htbl.
    rewrite fillLeaves_lookup_out by (unfold l2Table; lia).
    unfold l1. rewrite fillLevel_lookup_out by lia.
    unfold root. replace (Z.to_nat i) with (Z.to_nat (0 + i)) by lia.
    rewrite fillLevel_lookup_in by lia.
    rewrite Hl1Phys. unfold GSP_PAGE_SIZE. rewrite u64_small; [done|].
    unfold l1PhysBase. lia.
  - intros i Hi. rewrite Htbl.
    rewrite fillLeaves_lookup_out by (unfold l2Table; lia).
    unfold l1. rewrite fillLevel_lookup_in by lia.
    rewrite Hl2Phys. unfold GSP_PAGE_SIZE. rewrite u64_small; [done|].
    unfold l2PhysBase, l1PhysBase. lia.
  - intros i Hi. rewrite Htbl. unfold l2Table.
    rewrite fillLeaves_lookup_in; [done|lia| |lia|lia].
    intros k Hk. apply Hseg. lia.
  - intros j Hj. rewrite Htbl.
    rewrite fillLeaves_lookup_out by (unfold l2Table; lia).
    unfold l1. rewrite fillLevel_lookup_out by lia.
    unfold root. rewrite fillLevel_lookup_out by lia.
    unfold zeroed. apply lookup_replicate_2.
    replace ((1 + numL1 + numL2) * 4096 / 8) with ((1 + numL1 + numL2) * 512)
      by (Z.div_mod_to_equations; lia). lia.
Qed.

End Radix3Facts.

Lemma rd8_byte data off : Forall is_byte data -> 0 <= rd8 data off < 256.
Proof.
  intros Hb. unfold rd8. destruct (data !! Z.to_nat off) as [b|] eqn:E; cbn.
  - eapply Forall_lookup_1 in Hb; eauto.
  - lia.
Qed.

Lemma rd32_range data off :
  Forall is_byte data -> 0 <= rd32 data off < 4294967296.
Proof.
  intros Hb. unfold rd32.
  pose proof (rd8_byte data off Hb). pose proof (rd8_byte data (off + 1) Hb).
  pose proof (rd8_byte data (off + 2) Hb). pose proof (rd8_byte data (off + 3) Hb).
  lia.
Qed.

Section ParserFacts.
Context {W : Type} `{!Host W} `{!Regs} `{!Layout}.

Lemma extractUcode_extracted data size ucodeOffset ucodeDescOffset storedSz old info :
  0 <= ucodeOffset ->
  ucodeOffset + sizeof_FalconUcodeDescV3 <= size ->
  ucodeDescOffset + sizeof_FalconUcodeDescV3 <= size ->
  extractUcode data size ucodeOffset ucodeDescOffset storedSz old = Some info ->
  valid info = true /\ extractedFrom data size info.
Proof.
  intros Ha Hb Hc. unfold extractUcode.
  set (base := {| fwOffset := ucodeOffset |}).
  assert (Hbase : valid base = true /\ extractedFrom data size base).
  { split; [reflexivity|]. split; [exact Ha|]. split; [exact Hb|].
    exists ucodeDescOffset. repeat split; done. }
  destruct (_ <=? size).
  - destruct (findDmemMapper _ _ _ _ _) as [[j|]|]; intros E; inversion E; subst.
    + destruct Hbase as [Hv Hx]. split; [exact Hv|exact Hx].
    + exact Hbase.
  - intros E; inversion E; subst. exact Hbase.
Qed.

Lemma scanEntries_extracted n data size fwsecStart isAda entrySize :
  Forall is_byte data -> 0 <= fwsecStart ->
  forall entryOffset info info',
  scanEntries n data size fwsecStart isAda entrySize entryOffset info = Some info' ->
  info' = info \/ (valid info' = true /\ extractedFrom data size info').
Proof.
  intros Hb Hfs. induction n as [|n IH]; intros entryOffset info info' E.
  - cbn in E. inversion E. by left.
  - cbn [scanEntries] in E.
    destruct (entryOffset <? u64 (size - entrySize)); [|inversion E; by left].
    destruct (_ || _).
    2:{ eapply IH; exact E. }
    match type of E with
    | context [size <? ?uo + sizeof_FalconUcodeDescV3] => set (ucodeOffset := uo) in *
    end.
    assert (Huo : 0 <= ucodeOffset).
    { unfold ucodeOffset. destruct (_ <? fwsecStart).
      - apply u32_range.
      - apply rd32_range. exact Hb. }
    destruct (Z.ltb_spec size (ucodeOffset + sizeof_FalconUcodeDescV3)).
    { eapply IH; exact E. }
    match type of E with
    | context [size <? ?ud + sizeof_FalconUcodeDescV3] => set (ucodeDescOffset := ud) in *
    end.
    destruct (Z.ltb_spec size (ucodeDescOffset + sizeof_FalconUcodeDescV3)).
    { eapply IH; exact E. }
    right. eapply extractUcode_extracted; [exact Huo| | |exact E]; lia.
Qed.

Lemma scanImages_start_nonneg n data size : forall offset fs fl fs' fl',
  0 <= offset -> 0 <= fs ->
  scanImages n data size offset fs fl = Some (fs', fl') -> 0 <= fs'.
Proof.
  induction n as [|n IH]; intros offset fs fl fs' fl' Ho Hfs E.
  - cbn in E. destruct (negb _); [|discriminate]. inversion E; subst; done.
  - cbn [scanImages] in E.
    destruct (negb (offset <? _)); [inversion E; subst; done|].
    destruct (_ && romSignatureAt _ _).
    2:{ eapply IH; [| |exact E]; [apply u32_range|done]. }
    destruct (_ || _).
    { eapply IH; [| |exact E]; [apply u32_range|done]. }
    destruct (negb (_ =? 1380533072)).
    { eapply IH; [| |exact E]; [apply u32_range|done]. }
    destruct ((_ =? VBIOS_IMAGE_TYPE_FWSEC) && _).
    + destruct (testmask _ _); [inversion E; subst; done|].
      eapply IH; [| |exact E]; [apply u32_range|done].
    + destruct (testmask _ _); [inversion E; subst; done|].
      eapply IH; [| |exact E]; [apply u32_range|done].
Qed.

(** C6, as the code has it: when [parseVbios] sets [valid], the ucode
    descriptor it read lies inside the image, and imemOffset, imemSize,
    dmemOffset and dmemSize are the descriptor's words (the offsets moved by
    the descriptor's position); nothing is checked about where the IMEM and
    DMEM ranges end. *)
Theorem parseVbios_valid_descriptor_in_bounds (data : list Z) (size : Z)
    (g : Gsp W) (r : bool) (g' : Gsp W) :
  Forall is_byte data ->
  valid (fwsecInfo g) = false ->
  parseVbios data size g = Some (r, g') ->
  valid (fwsecInfo g') = true ->
  extractedFrom data size (fwsecInfo g').
Proof.
  intros Hb Hinv Hrun Hval. unfold parseVbios in Hrun.
  destruct (scanImages _ data size 0 0 0) as [[fwsecStart fwsecLen]|] eqn:Eimg;
    [|discriminate].
  assert (Hfs : 0 <= fwsecStart)
    by (eapply scanImages_start_nonneg; [| |exact Eimg]; lia).
  unfold bind, modify, ret, hang, gets, invalidate, IOLog, emit in Hrun.
  match type of Hrun with
  | context [match ?t g with _ => _ end] =>
      assert (Hg0 : exists g0 : Gsp W,
                t g = Some (tt, g0) /\ fwsecInfo g0 = fwsecInfo g)
        by (destruct (fwsecStart =? 0); eexists; split; reflexivity);
      destruct Hg0 as (g0 & E0 & Hg0); rewrite E0 in Hrun; clear E0
  end.
  destruct (_ <? u64 (size - 2)); [discriminate|].
  destruct (findBit _ data size 0) as [found|]; [|discriminate].
  destruct (default 0 found =? 0).
  { inversion Hrun; subst. cbn in Hval. discriminate. }
  destruct (scanTokens _ _ _ _ _ _ _ _ _) as [[pmuTokenOffset pmuTokenDataSize] falconDataOffset].
  destruct (_ && (size <? u32 _)).
  { inversion Hrun; subst. congruence. }
  match type of Hrun with
  | context [match ?t g0 with _ => _ end] =>
      assert (Hg1 : exists g1 : Gsp W,
                t g0 = Some (tt, g1) /\ fwsecInfo g1 = fwsecInfo g0)
        by (destruct (_ && (_ =? 0)); eexists; split; reflexivity);
      destruct Hg1 as (g1 & E1 & Hg1); rewrite E1 in Hrun; clear E1
  end.
  destruct (_ && (size <? _ + sizeof_BitFalconData)).
  { inversion Hrun; subst. congruence. }
  destruct (_ || negb _).
  { inversion Hrun; subst. cbn in Hval. discriminate. }
  destruct (if pmuLooksInvalid _ _ then _ else _) as [searched|]; [|discriminate].
  destruct (scanEntries _ _ _ _ _ _ _ _) as [info|] eqn:Escan; [|discriminate].
  inversion Hrun; subst. cbn [fwsecInfo set_fwsecInfo] in *.
  apply scanEntries_extracted in Escan; [|done|done].
  destruct Escan as [->|[_ Hx]]; [congruence|exact Hx].
Qed.

End ParserFacts.

(** C2 as stated does not hold: BR_RETCODE is 1 at the first poll, the line
    of the boot error is logged, and the boot attempt still succeeds at the
    next poll. *)
Lemma startRiscv_succeeds_after_boot_error :
  bootResult (startRiscv (bareGsp lateActiveDevice))
  = Some (true, [LogBootError 1 0]).
Proof. vm_compute. reflexivity. Qed.

Section VAFacts.
Import NVDAALVASpace.




End VAFacts.

Section ChannelFacts.
Import NVDAALChannel.

(** C10: on an initialised channel (4096-entry ring), [submit] returns
    [true] whatever [get] is: the entry at [put] becomes
    (address, length, flags = 1), the other entries stay, [put] advances
    modulo 4096, [get] is not consulted or changed, and word 0 of a mapped
    UserD page receives the new [put]. *)
Theorem submit_never_checks_occupancy (c : t) (pbGpuAddr pbLength : Z) :
  ringSize c = 0x1000 ->
  0 <= put c < 0x1000 ->
  List.length (gpfifoRing c) = 4096%nat ->
  let r := fst (submit pbGpuAddr pbLength c) in
  let c' := snd (submit pbGpuAddr pbLength c) in
  r = true
  /\ gpfifoRing c' !! Z.to_nat (put c)
     = Some {| address := pbGpuAddr; length := pbLength; flags := 1 |}
  /\ (forall i, i <> Z.to_nat (put c) ->
                gpfifoRing c' !! i = gpfifoRing c !! i)
  /\ put c' = (put c + 1) mod 4096
  /\ 0 <= put c' < 0x1000
  /\ ringSize c' = 0x1000
  /\ List.length (gpfifoRing c') = 4096%nat
  /\ get c' = get c
  /\ match userd c with
     | Some u =>
       exists u', userd c' = Some u'
                  /\ (u <> [] -> u' !! 0%nat = Some (put c'))
                  /\ forall i, i <> 0%nat -> u' !! i = u !! i
     | None => userd c' = None
     end.
Proof.
  intros Hsz Hput Hlen r c'. subst r c'. unfold submit. cbn [fst snd
    gpfifoRing put ringSize get userd].
  rewrite Hsz.
  rewrite (u32_small (put c + 1)) by lia.
  split; [reflexivity|].
  split; [apply list_lookup_insert_eq; lia|].
  split; [intros i Hi; by apply list_lookup_insert_ne|].
  split; [reflexivity|].
  split; [apply Z.mod_pos_bound; lia|].
  split; [reflexivity|].
  split; [by rewrite length_insert|].
  split; [reflexivity|].
  destruct (userd c) as [u|]; [|reflexivity].
  eexists. split; [reflexivity|]. split.
  - intros Hu. apply list_lookup_insert_eq. destruct u; [done|cbn; lia].
  - intros i Hi. by apply list_lookup_insert_ne.
Qed.

End ChannelFacts.

Lemma forallb_is_byte (l : list Z) :
  forallb is_byteb l = true -> Forall is_byte l.
Proof.
  induction l as [|x l IH]; cbn [forallb]; intros H; [constructor|].
  apply andb_true_iff in H as [Hx Hl].
  constructor; [|by apply IH].
  unfold is_byteb in Hx. unfold is_byte. lia.
Qed.

(** The scenario of the specification: 0x80000001 in WPR2_ADDR_HI. *)
Lemma executeFwsecFrts_wpr2_already_enabled_witness :
  exists lo hi,
    executeFwsecFrts wpr2SetGsp
    = Some (true, set_wpr2 lo hi
                    (set_trace (trace wpr2SetGsp ++ wpr2_reads (world wpr2SetGsp))
                       wpr2SetGsp))
    /\ forallb is_read (wpr2_reads (world wpr2SetGsp)) = true
    /\ existsb is_write (wpr2_reads (world wpr2SetGsp)) = false.
Proof.
  apply (executeFwsecFrts_wpr2_already_enabled wpr2SetGsp).
  vm_compute. reflexivity.
Defined.

(** A 9-byte payload on an empty queue: the tail moves to 256. *)
Lemma enqueueCommand_free_space_and_tail_witness :
  freeSpace 0 0 = QUEUE_SIZE
  /\ exists g', enqueueCommand msgPtr 9 msgGsp = Some (true, g')
                /\ cmdQueueTail g' = 256.
Proof.
  destruct (enqueueCommand_free_space_and_tail msgGsp msgPtr 9
              (replicate (Z.to_nat QUEUE_SIZE) 0))
    as (Hfree & _ & Hok).
  - vm_compute. split; reflexivity.
  - reflexivity.
  - vm_compute. split; [discriminate|reflexivity].
  - vm_compute. split; [discriminate|reflexivity].
  - lia.
  - vm_compute. reflexivity.
  - split; [exact Hfree|].
    destruct Hok as (g' & E & Ht & _).
    + vm_compute. discriminate.
    + exists g'. split; [exact E|exact Ht].
Defined.

(** The check input, as a checksum and as the payload of a frame. *)
Lemma calcChecksum_crc32_over_payload_witness :
  calcChecksum crc_check_input = crc32_ref crc_check_input
  /\ exists g' ring',
       enqueueCommand msgPtr 9 msgGsp = Some (true, g')
       /\ cmdQueue g' = Some ring'
       /\ rdbytes ring' (cmdQueueTail msgGsp + sizeof_GspQueueElement) 9
          = mem_load (mem msgGsp) msgPtr 9
       /\ rd32 ring' (cmdQueueTail msgGsp + elem_checkSum)
          = crc32_ref (mem_load (mem msgGsp) msgPtr 9).
Proof.
  destruct (calcChecksum_crc32_over_payload (W:=Sim)) as (Href & _ & Henq).
  split.
  - apply Href. apply forallb_is_byte. vm_compute. reflexivity.
  - apply (Henq msgGsp msgPtr 9 (replicate (Z.to_nat QUEUE_SIZE) 0)).
    + reflexivity.
    + lia.
    + vm_compute. reflexivity.
    + vm_compute. discriminate.
    + vm_compute. discriminate.
    + apply forallb_is_byte. vm_compute. reflexivity.
    + vm_compute. discriminate.
Defined.

(** 12188 bytes of firmware: three leaves, one L2 page, one L1 page. *)
Lemma buildRadix3PageTable_layout_witness :
  exists tbl,
    buildRadix3PageTable 12188 fwGsp
    = Some (true, set_radix3 (Some tbl) 0x10000000
                    (set_world (snd (sim_alloc (plainDevice ∅) 12288)) fwGsp))
    /\ tbl !! 0%nat = Some 0x10001001
    /\ tbl !! 512%nat = Some 0x10002001
    /\ tbl !! 1026%nat = Some 0x80002001
    /\ tbl !! 1027%nat = Some 0.
Proof.
  destruct (buildRadix3PageTable_layout fwGsp 12188 fwDesc3 0x10000000
              (snd (sim_alloc (plainDevice ∅) 12288)))
    as (tbl & E & _ & Hroot & Hl1 & Hl2 & Hzero).
  - lia.
  - reflexivity.
  - vm_compute. reflexivity.
  - lia.
  - intros i Hi. cbn. lia.
  - exists tbl. split; [exact E|].
    split; [exact (Hroot 0 ltac:(vm_compute; split; [discriminate|reflexivity]))|].
    split; [exact (Hl1 0 ltac:(vm_compute; split; [discriminate|reflexivity]))|].
    split; [exact (Hl2 2 ltac:(vm_compute; split; [discriminate|reflexivity]))|].
    apply (Hzero 1027). right. right. vm_compute.
    split; [discriminate|reflexivity].
Defined.

(** C6 as stated does not hold: in a 1 KiB image [parseVbios] sets [valid]
    for a descriptor whose IMEM range ends at 0x10300 and whose DMEM range
    ends at 0x11300. *)
Lemma parseVbios_valid_imem_out_of_bounds :
  let info := fwsecInfo (parsedState truncatedVbios 0x400 blankGsp) in
  Z.of_nat (length truncatedVbios) = 0x400
  /\ parseVbios truncatedVbios 0x400 blankGsp
     = Some (true, parsedState truncatedVbios 0x400 blankGsp)
  /\ valid info = true
  /\ imemOffset info = 0x300 /\ imemSize info = 0x10000
  /\ dmemOffset info = 0x10300 /\ dmemSize info = 0x1000
  /\ 0x400 < imemOffset info + imemSize info
  /\ 0x400 < dmemOffset info + dmemSize info.
Proof. vm_compute. repeat split; reflexivity. Qed.

(** An image the parser accepts through the token 0x70 path. *)
Lemma parseVbios_valid_descriptor_in_bounds_witness :
  extractedFrom token70Vbios 0x9400
    (fwsecInfo (parsedState token70Vbios 0x9400 blankGsp)).
Proof.
  apply (parseVbios_valid_descriptor_in_bounds token70Vbios 0x9400 blankGsp
           true (parsedState token70Vbios 0x9400 blankGsp)).
  - apply forallb_is_byte. vm_compute. reflexivity.
  - reflexivity.
  - vm_compute. reflexivity.
  - vm_compute. reflexivity.
Defined.

(** C7 does not hold of the code: on [token50OnlyVbios], where no token
    0x50 candidate is a PMU table and there is no token 0x70, [parseVbios]
    logs that it will use the pattern search and then returns with
    [valid = false] and the line of the missing PMU table, although the scan
    from 0x9000, had it run, finds the table with its 0x85 entry at 0x9000.
    The same image with a token 0x70 leading to an empty header is scanned
    and accepted. *)
Theorem parseVbios_skips_scan_when_tokens_fail :
  parseResult (parseVbios token50OnlyVbios 0x9400 blankGsp)
  = Some (true, fwsecInfo_zero, [EvLog LogPatternSearch; EvLog LogNoPmuTable])
  /\ patternSearch (Z.to_nat (0x9400 / 4 + 1)) token50OnlyVbios 0x9400 0x9000
     = Some (Some 0x9000)
  /\ hasFwsecEntry 1 token50OnlyVbios 0x9400 6 0x9006 = true
  /\ valid (fwsecInfo (parsedState token70Vbios 0x9400 blankGsp)) = true.
Proof. vm_compute. repeat split; reflexivity. Qed.

(** When the scan runs it looks at every fourth offset from 0x9000: a table
    at 0x9002 is not found, a table at 0x9000 is. *)
Lemma patternSearch_steps_by_four :
  pmuPatternAt offGridVbios 0x9400 0x9002 = true
  /\ patternSearch (Z.to_nat (0x9400 / 4 + 1)) offGridVbios 0x9400 0x9000
     = Some None.
Proof. vm_compute. split; reflexivity. Qed.



(** A submit on a full ring. *)
Lemma submit_never_checks_occupancy_witness :
  let c' := snd (NVDAALChannel.submit 0x4000 128 fullChannel) in
  fst (NVDAALChannel.submit 0x4000 128 fullChannel) = true
  /\ NVDAALChannel.gpfifoRing c' !! 5%nat
     = Some {| NVDAALChannel.address := 0x4000; NVDAALChannel.length := 128;
               NVDAALChannel.flags := 1 |}
  /\ NVDAALChannel.put c' = (5 + 1) mod 4096
  /\ NVDAALChannel.get c' = 6.
Proof.
  destruct (submit_never_checks_occupancy fullChannel 0x4000 128)
    as (Hr & Hent & _ & Hput & _ & _ & _ & Hget & _).
  - reflexivity.
  - vm_compute. split; [discriminate|reflexivity].
  - vm_compute. reflexivity.
  - repeat split; assumption.
Defined.

